(** * mcp-auth-demo: the token verification engine of [src/lib/auth.ts]

    A shallow embedding of [validateResourceParameter],
    [validateTokenAudience], [verifyPKCE] and [verifyGoogleToken], and the
    properties of the specification that concern them.

    Conventions of the embedding.
    - A JavaScript string is a [string], one character per code unit, where
      code units below 256 suffice; [verifyPKCE] is also given on strings
      in full, as lists of UTF-16 code units ([JSString]).
    - [undefined] is [None]; a value produced by [JSON.parse] or by
      [Response.json()] is a [json].
    - A built-in that can throw returns an [option], [None] when it throws;
      the promise of the asynchronous function is a [Completion]: it
      resolves to a value ([Returns]) or rejects ([Throws]).
    - The built-ins of the platform that the source calls ([atob],
      [JSON.parse], [new URL]) are fields of a [Platform]; the identity
      provider ([OAuth2Client.verifyIdToken], the userinfo endpoint reached
      through [fetch]) is a [Provider]; [process.env] and [globalThis] are
      an [Env].  Every general theorem is proved for all of them.
    - [console.log] writes are not part of the model: no branch reads them. *)

From Stdlib Require Import Bool Arith List String Ascii ZArith NArith Lia.
From Stdlib Require DecimalString DecimalPos DecimalN.
Import ListNotations.
Local Open Scope string_scope.
Local Open Scope list_scope.
Set Warnings "-register-all".

(** ** JavaScript strings *)

Module JS.

(** [s.split(sep)] for a one-character separator: the segments between
    the occurrences of [sep], empty ones included; never the empty list. *)
Fixpoint split (sep : ascii) (s : string) : list string :=
  match s with
  | EmptyString => [EmptyString]
  | String c r =>
      if Ascii.eqb c sep then EmptyString :: split sep r
      else match split sep r with
           | h :: t => String c h :: t
           | [] => [String c EmptyString]
           end
  end.

(** [s.startsWith(p)]. *)
Fixpoint startsWith (p s : string) : bool :=
  match p, s with
  | EmptyString, _ => true
  | String a p', String b s' => Ascii.eqb a b && startsWith p' s'
  | String _ _, EmptyString => false
  end.

(** [s.substring(n)]: [s] without its first [n] code units. *)
Fixpoint substring_from (n : nat) (s : string) : string :=
  match n, s with
  | O, _ => s
  | S n', String _ s' => substring_from n' s'
  | S _, EmptyString => EmptyString
  end.

(** Truthiness of a [string | undefined | null]: only a non-empty string
    is truthy. *)
Definition truthy (v : option string) : bool :=
  match v with
  | Some (String _ _) => true
  | _ => false
  end.

(** ASCII lower-casing, the byte-case-insensitive comparison of header
    names. *)
Definition lower_ascii (c : ascii) : ascii :=
  let n := nat_of_ascii c in
  if ((65 <=? n)%nat && (n <=? 90)%nat)%bool then ascii_of_nat (n + 32) else c.

Fixpoint lower (s : string) : string :=
  match s with
  | EmptyString => EmptyString
  | String c r => String (lower_ascii c) (lower r)
  end.

End JS.

(** ** JSON values *)

(** The result of [JSON.parse]. A number keeps the text of its literal: the
    source never computes with a parsed number. An object keeps its members
    in source order. *)
Inductive json : Type :=
| JNull
| JBool (b : bool)
| JNum (literal : string)
| JStr (s : string)
| JArr (elems : list json)
| JObj (members : list (string * json)).

(** A JavaScript value as the source sees one: [undefined] or a JSON value. *)
Definition jsval : Type := option json.

(** The last member named [k] (a later duplicate key overwrites an earlier
    one). *)
Fixpoint lookup_member (k : string) (ms : list (string * json)) : jsval :=
  match ms with
  | [] => None
  | (k', v) :: rest =>
      match lookup_member k rest with
      | Some v' => Some v'
      | None => if String.eqb k k' then Some v else None
      end
  end.

(** [v.k] on a parsed value, for a key [k] that no prototype defines (such
    are all the keys the source reads): a [TypeError] ([None]) on [null],
    the member on an object, [undefined] on everything else. *)
Definition get_prop (v : json) (k : string) : option jsval :=
  match v with
  | JNull => None
  | JObj ms => Some (lookup_member k ms)
  | _ => Some None
  end.

(** [v === s] for a string [s]. *)
Definition strict_eq_string (v : jsval) (s : string) : bool :=
  match v with
  | Some (JStr t) => String.eqb t s
  | _ => false
  end.

(** [Array.isArray(v) && v.includes(s)] for a string [s]. *)
Definition array_includes_string (v : jsval) (s : string) : bool :=
  match v with
  | Some (JArr l) => existsb (fun e => strict_eq_string (Some e) s) l
  | _ => false
  end.

(** ** URLs *)

(** What [new URL(s)] keeps of [s] that the origin depends on: the scheme
    (lower case, without the colon), the serialised host, the port when it
    is not the default one of the scheme, and the path when it is an opaque
    one (as in [mailto:a@b.c] or [blob:https://h/id]) rather than a list of
    segments. *)
Record URL : Type := mkURL {
  url_scheme : string;
  url_host : option string;
  url_port : option N;
  url_opaque_path : option string
}.

(** ** The platform *)

Record Platform : Type := mkPlatform {
  (** [atob(s)]; [None] when it throws. *)
  atob : string -> option string;
  (** [JSON.parse(s)]; [None] when it throws. *)
  JSON_parse : string -> option json;
  (** [new URL(s)]; [None] when it throws. *)
  URL_parse : string -> option URL
}.

(** ** [validateTokenAudience] *)

Section Audience.

Variable pf : Platform.

(** [JSON.parse(atob(seg))]. *)
Definition decode_segment (seg : string) : option json :=
  match atob pf seg with
  | Some text => JSON_parse pf text
  | None => None
  end.

(** The body of the [try] block; [None] when it throws. *)
Definition validateTokenAudience_try
    (token expectedAudience : string) : option bool :=
  let parts := JS.split "." token in
  if Nat.eqb (List.length parts) 3 then
    match decode_segment (nth 1 parts EmptyString) with
    | None => None
    | Some payload =>
        match get_prop payload "aud" with
        | None => None
        | Some aud =>
            Some (strict_eq_string aud expectedAudience
                  || array_includes_string aud expectedAudience)
        end
    end
  else Some true.

Definition validateTokenAudience (token expectedAudience : string) : bool :=
  match validateTokenAudience_try token expectedAudience with
  | Some b => b
  | None => false
  end.

End Audience.

(** ** Origins and [validateResourceParameter] *)

Definition decimal_of_N (n : N) : string :=
  DecimalString.NilZero.string_of_uint (N.to_uint n).

(** The schemes whose URLs have a tuple origin. *)
Definition tuple_origin_scheme (scheme : string) : bool :=
  existsb (String.eqb scheme) ["ftp"; "http"; "https"; "ws"; "wss"].

(** The serialisation of a tuple origin: scheme, host, and the port when
    there is one. *)
Definition serialize_tuple_origin (u : URL) : string :=
  url_scheme u ++ "://"
  ++ match url_host u with Some h => h | None => EmptyString end
  ++ match url_port u with
     | Some p => ":" ++ decimal_of_N p
     | None => EmptyString
     end.

Section Origin.

Variable pf : Platform.

(** The [origin] getter of a URL object: the serialised tuple origin of an
    ftp, http, https, ws or wss URL, that of the http or https URL in the
    path of a blob URL, and the string [null] (an opaque origin) for every
    other URL. The path of a blob URL is parsed as a URL; a path that is a
    list of segments is serialised with a leading slash and does not
    parse. *)
Definition URL_origin (u : URL) : string :=
  if String.eqb (url_scheme u) "blob" then
    match url_opaque_path u with
    | Some path =>
        match URL_parse pf path with
        | Some inner =>
            if existsb (String.eqb (url_scheme inner)) ["http"; "https"]
            then serialize_tuple_origin inner
            else "null"
        | None => "null"
        end
    | None => "null"
    end
  else if tuple_origin_scheme (url_scheme u) then serialize_tuple_origin u
  else "null".

(** [new URL(s).origin]; [None] when the constructor throws. *)
Definition origin_of (s : string) : option string :=
  match URL_parse pf s with
  | Some u => Some (URL_origin u)
  | None => None
  end.

Definition validateResourceParameter (resource serverBaseUrl : string) : bool :=
  match origin_of resource with
  | None => false
  | Some resourceOrigin =>
      match origin_of serverBaseUrl with
      | None => false
      | Some serverOrigin => String.eqb resourceOrigin serverOrigin
      end
  end.

End Origin.

(** ** SHA-256 (FIPS 180-4) on bytes, a 32-bit word being a [Z] in
    [0, 2^32) *)

Module SHA256.

Local Open Scope Z_scope.

Definition wrap32 (x : Z) : Z := x mod 2 ^ 32.

Definition add32 (x y : Z) : Z := wrap32 (x + y).

Definition rotr (n x : Z) : Z :=
  Z.lor (Z.shiftr x n) (wrap32 (Z.shiftl x (32 - n))).

Definition not32 (x : Z) : Z := Z.lxor x (2 ^ 32 - 1).

Definition Ch (x y z : Z) : Z :=
  Z.lxor (Z.land x y) (Z.land (not32 x) z).

Definition Maj (x y z : Z) : Z :=
  Z.lxor (Z.lxor (Z.land x y) (Z.land x z)) (Z.land y z).

Definition Sum0 (x : Z) : Z :=
  Z.lxor (Z.lxor (rotr 2 x) (rotr 13 x)) (rotr 22 x).

Definition Sum1 (x : Z) : Z :=
  Z.lxor (Z.lxor (rotr 6 x) (rotr 11 x)) (rotr 25 x).

Definition sig0 (x : Z) : Z :=
  Z.lxor (Z.lxor (rotr 7 x) (rotr 18 x)) (Z.shiftr x 3).

Definition sig1 (x : Z) : Z :=
  Z.lxor (Z.lxor (rotr 17 x) (rotr 19 x)) (Z.shiftr x 10).

(** The first sixty-four primes. *)
Definition primes : list Z :=
  [2; 3; 5; 7; 11; 13; 17; 19; 23; 29; 31; 37; 41; 43; 47; 53;
   59; 61; 67; 71; 73; 79; 83; 89; 97; 101; 103; 107; 109; 113; 127; 131;
   137; 139; 149; 151; 157; 163; 167; 173; 179; 181; 191; 193; 197; 199;
   211; 223; 227; 229; 233; 239; 241; 251; 257; 263; 269; 271; 277; 281;
   283; 293; 307; 311].

(** The integer cube root of [n < 2^(3*bits)], one bit at a time. *)
Fixpoint cube_root_bits (bits : nat) (n acc : Z) : Z :=
  match bits with
  | O => acc
  | S b =>
      let cand := acc + 2 ^ Z.of_nat b in
      cube_root_bits b n (if cand * cand * cand <=? n then cand else acc)
  end.

(** The round constants: the first 32 bits of the fractional parts of the
    cube roots of the primes. *)
Definition K : list Z :=
  Eval vm_compute in
    map (fun p => wrap32 (cube_root_bits 36 (p * 2 ^ 96) 0)) primes.

(** The initial hash value: the first 32 bits of the fractional parts of
    the square roots of the first eight primes. *)
Definition H0 : list Z :=
  Eval vm_compute in
    map (fun p => wrap32 (Z.sqrt (p * 2 ^ 64))) (firstn 8 primes).

(** [len] bytes of [x], most significant first. *)
Fixpoint be_bytes (len : nat) (x : Z) : list Z :=
  match len with
  | O => []
  | S l => (Z.shiftr x (8 * Z.of_nat l)) mod 256 :: be_bytes l x
  end.

Definition be_word (bs : list Z) : Z :=
  fold_left (fun acc b => acc * 256 + b) bs 0.

(** The message, the byte 0x80, zero bytes up to 56 modulo 64, and the
    length of the message in bits on eight bytes. *)
Definition pad (msg : list Z) : list Z :=
  let len := Z.of_nat (List.length msg) in
  msg ++ [128] ++ repeat 0 (Z.to_nat ((55 - len) mod 64))
      ++ be_bytes 8 (8 * len).

(** The words of a byte sequence, four bytes each. *)
Fixpoint words (fuel : nat) (bs : list Z) : list Z :=
  match fuel, bs with
  | S f, _ :: _ => be_word (firstn 4 bs) :: words f (skipn 4 bs)
  | _, _ => []
  end.

(** The message schedule of a block, latest word first. *)
Fixpoint schedule_rev (n : nat) (rev_w : list Z) : list Z :=
  match n with
  | O => rev_w
  | S n' =>
      let w := add32 (add32 (sig1 (nth 1 rev_w 0)) (nth 6 rev_w 0))
                     (add32 (sig0 (nth 14 rev_w 0)) (nth 15 rev_w 0)) in
      schedule_rev n' (w :: rev_w)
  end.

Definition schedule (block : list Z) : list Z :=
  rev (schedule_rev 48 (rev block)).

Record regs : Type := mkRegs { ra : Z; rb : Z; rc : Z; rd : Z;
                               re : Z; rf : Z; rg : Z; rh : Z }.

Definition round (s : regs) (kw : Z * Z) : regs :=
  let t1 := add32 (add32 (add32 (rh s) (Sum1 (re s)))
                         (add32 (Ch (re s) (rf s) (rg s)) (fst kw)))
                  (snd kw) in
  let t2 := add32 (Sum0 (ra s)) (Maj (ra s) (rb s) (rc s)) in
  mkRegs (add32 t1 t2) (ra s) (rb s) (rc s)
         (add32 (rd s) t1) (re s) (rf s) (rg s).

Definition regs_of (h : list Z) : regs :=
  mkRegs (nth 0 h 0) (nth 1 h 0) (nth 2 h 0) (nth 3 h 0)
         (nth 4 h 0) (nth 5 h 0) (nth 6 h 0) (nth 7 h 0).

Definition list_of (s : regs) : list Z :=
  [ra s; rb s; rc s; rd s; re s; rf s; rg s; rh s].

Definition compress (h : list Z) (block : list Z) : list Z :=
  let s := fold_left round (combine K (schedule block)) (regs_of h) in
  map (fun p => add32 (fst p) (snd p)) (combine h (list_of s)).

Fixpoint blocks (fuel : nat) (ws : list Z) : list (list Z) :=
  match fuel, ws with
  | S f, _ :: _ => firstn 16 ws :: blocks f (skipn 16 ws)
  | _, _ => []
  end.

(** The digest of a byte sequence: thirty-two bytes. *)
Definition digest (msg : list Z) : list Z :=
  let bs := pad msg in
  let ws := words (List.length bs) bs in
  flat_map (be_bytes 4) (fold_left compress (blocks (List.length ws) ws) H0).

End SHA256.

(** ** Encodings *)

(** The UTF-8 encoding of a string whose code units are below 256. *)
Fixpoint utf8 (s : string) : list Z :=
  match s with
  | EmptyString => []
  | String c r =>
      let n := Z.of_nat (nat_of_ascii c) in
      if (n <? 128)%Z then n :: utf8 r
      else (192 + n / 64)%Z :: (128 + n mod 64)%Z :: utf8 r
  end.

Definition base64url_alphabet : string :=
  "ABCDEFGHIJKLMNOPQRSTUVWXYZabcdefghijklmnopqrstuvwxyz0123456789-_".

Definition base64url_digit (n : Z) : ascii :=
  match String.get (Z.to_nat n) base64url_alphabet with
  | Some c => c
  | None => "="%char
  end.

(** Base64 with the URL-safe alphabet and without padding. *)
Fixpoint base64url (bs : list Z) : string :=
  match bs with
  | [] => EmptyString
  | [a] =>
      String (base64url_digit (a / 4))
        (String (base64url_digit (a mod 4 * 16)) EmptyString)
  | [a; b] =>
      String (base64url_digit (a / 4))
        (String (base64url_digit (a mod 4 * 16 + b / 16))
           (String (base64url_digit (b mod 16 * 4)) EmptyString))
  | a :: b :: c :: rest =>
      String (base64url_digit (a / 4))
        (String (base64url_digit (a mod 4 * 16 + b / 16))
           (String (base64url_digit (b mod 16 * 4 + c / 64))
              (String (base64url_digit (c mod 64)) (base64url rest))))
  end%Z.

(** ** [verifyPKCE] *)

(** [crypto.createHash("sha256").update(s).digest("base64url")]. *)
Definition sha256_base64url (s : string) : string :=
  base64url (SHA256.digest (utf8 s)).

Definition verifyPKCE (codeChallenge codeVerifier : string) : bool :=
  let hash := sha256_base64url codeVerifier in
  String.eqb codeChallenge hash.

(** ** Requests and their headers *)

(** A [Headers] object: the header list, names as they were appended. *)
Definition Headers : Type := list (string * string).

Record Request : Type := mkRequest {
  req_url : string;
  req_method : string;
  req_headers : Headers
}.

(** [headers.get(name)]: the values of the headers whose name matches
    [name] without regard to ASCII case, joined by a comma and a space;
    [null] when there is none. *)
Definition Headers_get (hs : Headers) (name : string) : option string :=
  match filter (fun h => String.eqb (JS.lower (fst h)) (JS.lower name)) hs with
  | [] => None
  | matching => Some (String.concat ", " (map snd matching))
  end.

(** ** Environment, provider and result types *)

(** [process.env] and the debug global of [auth-types]. *)
Record Env : Type := mkEnv {
  NODE_ENV : option string;
  DEV_AUTH_TOKEN : option string;
  SKIP_AUTH : option string;
  GOOGLE_CLIENT_ID : option string;
  mcpDebugToken : option string
}.

(** The payload of a verified Google ID token ([TokenPayload] of
    google-auth-library), the fields the source reads. *)
Record TokenPayload : Type := mkTokenPayload {
  tp_sub : string;
  tp_exp : Z;
  tp_email : option string;
  tp_name : option string;
  tp_picture : option string;
  tp_email_verified : option bool;
  tp_hd : option string;
  tp_locale : option string
}.

(** The outcome of [googleClient.verifyIdToken]: the promise rejects with an
    [Error], or resolves to a ticket whose [getPayload()] is a payload or
    [undefined]. *)
Inductive IdTokenOutcome : Type :=
| IdRejected (message : string)
| IdTicket (payload : option TokenPayload).

(** A [Response]: [json_body] is [None] when [json()] rejects. *)
Record Response : Type := mkResponse {
  resp_ok : bool;
  resp_status : N;
  resp_statusText : string;
  json_body : option json
}.

(** The outcome of [fetch]: the promise rejects (network failure) or
    resolves to a response. *)
Inductive FetchOutcome : Type :=
| FetchRejected
| FetchResolved (r : Response).

(** The identity provider: what it answers to each of the two calls. *)
Record Provider : Type := mkProvider {
  verifyIdToken : string -> option string -> IdTokenOutcome;
  fetch : string -> string -> FetchOutcome
}.

(** The calls made to the provider, in the order they are made. *)
Inductive Event : Type :=
| CallVerifyIdToken (idToken : string) (audience : option string)
| CallFetch (url : string) (authorization : string).

Record AuthInfo : Type := mkAuthInfo {
  token : string;
  scopes : list string;
  clientId : jsval;
  expiresAt : option Z;
  extra : list (string * jsval)
}.

(** ** Throwing, catching and calling *)

Inductive exn : Type :=
| TypeError
| SyntaxError
| NetworkError
| Error (message : string).

Inductive Completion (A : Type) : Type :=
| Returns (a : A)
| Throws (e : exn).
Arguments Returns {A} a.
Arguments Throws {A} e.

(** A computation receives the calls made so far and gives back the calls
    made when it completes, and how it completed. *)
Definition M (A : Type) : Type := list Event -> list Event * Completion A.

Definition ret {A} (a : A) : M A := fun tr => (tr, Returns a).

Definition throw {A} (e : exn) : M A := fun tr => (tr, Throws e).

Definition bind {A B} (m : M A) (k : A -> M B) : M B :=
  fun tr =>
    match m tr with
    | (tr', Returns a) => k a tr'
    | (tr', Throws e) => (tr', Throws e)
    end.

(** [try { m } catch (e) { handler e }]. *)
Definition try_catch {A} (m : M A) (handler : exn -> M A) : M A :=
  fun tr =>
    match m tr with
    | (tr', Returns a) => (tr', Returns a)
    | (tr', Throws e) => handler e tr'
    end.

(** A call that throws when its result is [None]. *)
Definition or_throw {A} (e : exn) (o : option A) : M A :=
  match o with
  | Some a => ret a
  | None => throw e
  end.

Declare Scope js_scope.
Delimit Scope js_scope with js.
Notation "x <- m ;; k" := (bind m (fun x => k))
  (at level 61, m at next level, right associativity) : js_scope.

Definition run {A} (m : M A) : list Event * Completion A := m [].

(** ** [verifyGoogleToken] *)

Definition authHeaders : list string :=
  ["authorization"; "Authorization"; "bearer"; "Bearer";
   "x-auth-token"; "x-authorization"].

Definition mcpScopes : list string :=
  ["read:mcp"; "write:mcp"; "mcp:read"; "mcp:write"; "mcp:tools"].

Definition userinfo_url : string :=
  "https://www.googleapis.com/oauth2/v2/userinfo".

(** The two branches on a header value: [Some] of the value without its
    first seven code units when it starts with [Bearer ] or with [bearer ],
    [None] when neither branch is taken. *)
Definition strip_bearer (value : string) : option string :=
  if JS.startsWith "Bearer " value then Some (JS.substring_from 7 value)
  else if JS.startsWith "bearer " value then Some (JS.substring_from 7 value)
  else None.

(** The [for (const header of authHeaders)] loop; [Some] when it leaves by
    [break]. *)
Fixpoint scan_headers (hs : Headers) (names : list string) : option string :=
  match names with
  | [] => None
  | header :: rest =>
      let value := Headers_get hs header in
      if JS.truthy value then
        match value with
        | Some v =>
            match strip_bearer v with
            | Some t => Some t
            | None => scan_headers hs rest
            end
        | None => scan_headers hs rest
        end
      else scan_headers hs rest
  end.

(** [bearerToken] after the header scan. *)
Definition extract_token (req : Request) (bearerToken : option string)
  : option string :=
  if negb (JS.truthy bearerToken) then
    match scan_headers (req_headers req) authHeaders with
    | Some t => Some t
    | None => bearerToken
    end
  else bearerToken.

Definition env_is (v : option string) (s : string) : bool :=
  match v with
  | Some t => String.eqb t s
  | None => false
  end.

(** The outcome of the development block: it returns the development
    context, or execution goes on with a possibly replaced [bearerToken]. *)
Inductive DevOutcome : Type :=
| DevBypass
| DevToken (bearerToken : option string).

Definition development_bypass (env : Env) (bearerToken : option string)
  : DevOutcome :=
  if negb (JS.truthy bearerToken) && env_is (NODE_ENV env) "development" then
    let bearerToken1 :=
      if JS.truthy (DEV_AUTH_TOKEN env) then DEV_AUTH_TOKEN env
      else bearerToken in
    let bearerToken2 :=
      if negb (JS.truthy bearerToken1) && JS.truthy (mcpDebugToken env)
      then mcpDebugToken env
      else bearerToken1 in
    if env_is (SKIP_AUTH env) "true" then DevBypass
    else DevToken bearerToken2
  else DevToken bearerToken.

Definition str (s : string) : jsval := Some (JStr s).

Definition opt_str (s : option string) : jsval := option_map JStr s.

Definition dev_bypass_info : AuthInfo :=
  {| token := "dev-bypass";
     scopes := mcpScopes;
     clientId := str "dev-user";
     expiresAt := None;
     extra := [("email", str "dev@example.com");
               ("name", str "Development User");
               ("mcpCompliant", str "2025-06-18")] |}.

Definition id_token_info (bearerToken baseUrl : string) (payload : TokenPayload)
  : AuthInfo :=
  {| token := bearerToken;
     scopes := mcpScopes;
     clientId := str (tp_sub payload);
     expiresAt := Some (tp_exp payload);
     extra := [("email", opt_str (tp_email payload));
               ("name", opt_str (tp_name payload));
               ("picture", opt_str (tp_picture payload));
               ("verified", option_map JBool (tp_email_verified payload));
               ("domain", opt_str (tp_hd payload));
               ("locale", opt_str (tp_locale payload));
               ("provider", str "google");
               ("tokenType", str "id_token");
               ("mcpCompliant", str "2025-06-18");
               ("audience", str baseUrl)] |}.

(** The context built from a userinfo body; the property reads throw a
    [TypeError] on [null]. *)
Definition access_token_info
    (bearerToken baseUrl tokenType : string) (userInfo : json)
  : M AuthInfo :=
  (email <- or_throw TypeError (get_prop userInfo "email");;
   id <- or_throw TypeError (get_prop userInfo "id");;
   name <- or_throw TypeError (get_prop userInfo "name");;
   picture <- or_throw TypeError (get_prop userInfo "picture");;
   verified <- or_throw TypeError (get_prop userInfo "verified_email");;
   locale <- or_throw TypeError (get_prop userInfo "locale");;
   ret {| token := bearerToken;
          scopes := mcpScopes;
          clientId := id;
          expiresAt := None;
          extra := [("email", email);
                    ("name", name);
                    ("picture", picture);
                    ("verified", verified);
                    ("locale", locale);
                    ("provider", str "google");
                    ("tokenType", str tokenType);
                    ("mcpCompliant", str "2025-06-18");
                    ("audience", str baseUrl)] |})%js.

Section Verify.

Variable env : Env.
Variable prov : Provider.
Variable pf : Platform.

(** [await googleClient.verifyIdToken(...)] followed by
    [ticket.getPayload()]. The library rejects with an [Error], whose
    message the handler logs. *)
Definition call_verifyIdToken (idToken : string) (audience : option string)
  : M (option TokenPayload) :=
  fun tr =>
    let tr' := tr ++ [CallVerifyIdToken idToken audience] in
    match verifyIdToken prov idToken audience with
    | IdRejected message => (tr', Throws (Error message))
    | IdTicket payload => (tr', Returns payload)
    end.

(** [await fetch(url, { headers: { Authorization: authorization } })]. *)
Definition call_fetch (url authorization : string) : M Response :=
  fun tr =>
    let tr' := tr ++ [CallFetch url authorization] in
    match fetch prov url authorization with
    | FetchRejected => (tr', Throws NetworkError)
    | FetchResolved r => (tr', Returns r)
    end.

Definition userinfo_failed (r : Response) : exn :=
  Error ("UserInfo API failed: " ++ decimal_of_N (resp_status r)
         ++ " " ++ resp_statusText r).

(** The function from [const baseUrl = ...] on, for a truthy
    [bearerToken]. The call of [validateTokenAudience] and the manual
    decoding of the token parts only choose what is logged. A [return
    undefined] inside a [try] is the value [None] of the block: nothing but
    logging separates the end of the branches from [return authInfo]. *)
Definition verify_bearer (req : Request) (bearerToken : string)
  : M (option AuthInfo) :=
  (baseUrl <- or_throw TypeError (origin_of pf (req_url req));;
   let _ := validateTokenAudience pf bearerToken baseUrl in
   try_catch
     (let tokenSegments := JS.split "." bearerToken in
      if Nat.eqb (List.length tokenSegments) 3 then
        try_catch
          (payload <- call_verifyIdToken bearerToken (GOOGLE_CLIENT_ID env);;
           match payload with
           | None => ret None
           | Some payload =>
               ret (Some (id_token_info bearerToken baseUrl payload))
           end)
          (fun jwtError =>
             userInfoResponse <-
               call_fetch userinfo_url ("Bearer " ++ bearerToken);;
             if negb (resp_ok userInfoResponse) then
               throw (userinfo_failed userInfoResponse)
             else
               userInfo <- or_throw SyntaxError (json_body userInfoResponse);;
               authInfo <- access_token_info bearerToken baseUrl
                             "access_token_fallback" userInfo;;
               ret (Some authInfo))
      else if JS.startsWith "ya29." bearerToken then
        userInfoResponse <-
          call_fetch userinfo_url ("Bearer " ++ bearerToken);;
        if negb (resp_ok userInfoResponse) then ret None
        else
          userInfo <- or_throw SyntaxError (json_body userInfoResponse);;
          authInfo <- access_token_info bearerToken baseUrl
                        "access_token" userInfo;;
          ret (Some authInfo)
      else ret None)
     (fun error => ret None))%js.

Definition verifyGoogleToken (req : Request) (bearerToken : option string)
  : M (option AuthInfo) :=
  match development_bypass env (extract_token req bearerToken) with
  | DevBypass => ret (Some dev_bypass_info)
  | DevToken bearerToken' =>
      match bearerToken' with
      | Some (String c t) => verify_bearer req (String c t)
      | _ => ret None
      end
  end.

(** The credential that reaches the verification, when one does. *)
Definition credential (req : Request) (bearerToken : option string)
  : option string :=
  match development_bypass env (extract_token req bearerToken) with
  | DevToken (Some (String c t)) => Some (String c t)
  | _ => None
  end.

End Verify.

(** ** A reference platform

    Executable versions of the three built-ins, for running the model on
    concrete inputs. No general theorem depends on them. *)

Module Reference.

Definition code (c : ascii) : nat := nat_of_ascii c.

Definition in_range (lo hi : nat) (c : ascii) : bool :=
  ((lo <=? code c) && (code c <=? hi))%nat.

Definition is_digit (c : ascii) : bool := in_range 48 57 c.
Definition is_upper (c : ascii) : bool := in_range 65 90 c.
Definition is_lower (c : ascii) : bool := in_range 97 122 c.
Definition is_alpha (c : ascii) : bool := is_upper c || is_lower c.

Definition chars (s : string) : list ascii := list_ascii_of_string s.
Definition text (cs : list ascii) : string := string_of_list_ascii cs.

(** *** [atob]: the forgiving-base64 decoding of the Infra Standard *)

Definition base64_value (c : ascii) : option nat :=
  if is_upper c then Some (code c - 65)
  else if is_lower c then Some (code c - 97 + 26)
  else if is_digit c then Some (code c - 48 + 52)
  else if Ascii.eqb c "+" then Some 62
  else if Ascii.eqb c "/" then Some 63
  else None.

Definition is_ascii_whitespace (c : ascii) : bool :=
  existsb (Nat.eqb (code c)) [9; 10; 12; 13; 32].

(** Without one or two [=] at the end, when the length is a multiple of
    four. *)
Definition strip_padding (cs : list ascii) : list ascii :=
  if Nat.eqb (List.length cs mod 4) 0 then
    match rev cs with
    | "="%char :: "="%char :: r => rev r
    | "="%char :: r => rev r
    | _ => cs
    end
  else cs.

Fixpoint base64_values (cs : list ascii) : option (list nat) :=
  match cs with
  | [] => Some []
  | c :: r =>
      match base64_value c, base64_values r with
      | Some v, Some vs => Some (v :: vs)
      | _, _ => None
      end
  end.

Fixpoint base64_bytes (vs : list nat) : list ascii :=
  match vs with
  | a :: b :: c :: d :: r =>
      ascii_of_nat (a * 4 + b / 16)
      :: ascii_of_nat (b mod 16 * 16 + c / 4)
      :: ascii_of_nat (c mod 4 * 64 + d) :: base64_bytes r
  | [a; b; c] =>
      [ascii_of_nat (a * 4 + b / 16); ascii_of_nat (b mod 16 * 16 + c / 4)]
  | [a; b] => [ascii_of_nat (a * 4 + b / 16)]
  | _ => []
  end.

Definition atob (s : string) : option string :=
  let cs := strip_padding
              (filter (fun c => negb (is_ascii_whitespace c)) (chars s)) in
  if Nat.eqb (List.length cs mod 4) 1 then None
  else option_map (fun vs => text (base64_bytes vs)) (base64_values cs).

(** *** [JSON.parse] on texts whose escapes stay below code unit 256 *)

Definition is_json_space (c : ascii) : bool :=
  existsb (Nat.eqb (code c)) [9; 10; 13; 32].

Fixpoint skip_space (cs : list ascii) : list ascii :=
  match cs with
  | c :: r => if is_json_space c then skip_space r else cs
  | [] => []
  end.

Definition hex_value (c : ascii) : option nat :=
  if is_digit c then Some (code c - 48)
  else if in_range 65 70 c then Some (code c - 55)
  else if in_range 97 102 c then Some (code c - 87)
  else None.

(** The code unit of a one-letter escape. *)
Definition json_escape (e : ascii) : option ascii :=
  if Ascii.eqb e "034" then Some "034"%char
  else if Ascii.eqb e "\" then Some "\"%char
  else if Ascii.eqb e "/" then Some "/"%char
  else if Ascii.eqb e "b" then Some (ascii_of_nat 8)
  else if Ascii.eqb e "f" then Some (ascii_of_nat 12)
  else if Ascii.eqb e "n" then Some (ascii_of_nat 10)
  else if Ascii.eqb e "r" then Some (ascii_of_nat 13)
  else if Ascii.eqb e "t" then Some (ascii_of_nat 9)
  else None.

(** The characters of a string literal after its opening quote, and what
    follows the closing quote. A [\u] escape of a code unit above 255 has
    no image in [string] and is refused. *)
Fixpoint json_string (cs : list ascii) (acc : list ascii)
  : option (string * list ascii) :=
  match cs with
  | [] => None
  | c :: r =>
      if Ascii.eqb c "034" then Some (text (rev acc), r)
      else if Ascii.eqb c "\" then
        match r with
        | [] => None
        | e :: r' =>
            if Ascii.eqb e "u" then
              match r' with
              | a :: b :: h :: l :: r'' =>
                  match hex_value a, hex_value b, hex_value h, hex_value l with
                  | Some 0, Some 0, Some hv, Some lv =>
                      json_string r'' (ascii_of_nat (16 * hv + lv) :: acc)
                  | _, _, _, _ => None
                  end
              | _ => None
              end
            else
              match json_escape e with
              | Some u => json_string r' (u :: acc)
              | None => None
              end
        end
      else if (code c <? 32)%nat then None
      else json_string r (c :: acc)
  end.

Fixpoint span_digits (cs : list ascii) : list ascii * list ascii :=
  match cs with
  | c :: r =>
      if is_digit c then let (ds, rest) := span_digits r in (c :: ds, rest)
      else ([], cs)
  | [] => ([], [])
  end.

(** A number literal: an optional minus, an integer part without a leading
    zero, an optional fraction and an optional exponent. *)
Definition json_number (cs : list ascii) : option (string * list ascii) :=
  let (sign, cs1) :=
    match cs with
    | "-"%char :: r => (["-"%char], r)
    | _ => ([], cs)
    end in
  let (int, cs2) := span_digits cs1 in
  match int with
  | [] => None
  | d :: ds =>
      if Ascii.eqb d "0" && negb (Nat.eqb (List.length ds) 0) then None
      else
        let frac :=
          match cs2 with
          | "."%char :: r =>
              let (fs, r') := span_digits r in
              match fs with
              | [] => None
              | _ => Some ("."%char :: fs, r')
              end
          | _ => Some ([], cs2)
          end in
        match frac with
        | None => None
        | Some (fr, cs3) =>
            let expo :=
              match cs3 with
              | e :: r =>
                  if Ascii.eqb e "e" || Ascii.eqb e "E" then
                    let (sg, r1) :=
                      match r with
                      | s :: r0 =>
                          if Ascii.eqb s "+" || Ascii.eqb s "-"
                          then ([s], r0) else ([], r)
                      | [] => ([], r)
                      end in
                    let (es, r2) := span_digits r1 in
                    match es with
                    | [] => None
                    | _ => Some (e :: sg ++ es, r2)
                    end
                  else Some ([], cs3)
              | [] => Some ([], cs3)
              end in
            match expo with
            | None => None
            | Some (ex, cs4) => Some (text (sign ++ int ++ fr ++ ex), cs4)
            end
        end
  end.

Fixpoint expect (word : list ascii) (cs : list ascii) : option (list ascii) :=
  match word, cs with
  | [], _ => Some cs
  | w :: word', c :: r => if Ascii.eqb w c then expect word' r else None
  | _ :: _, [] => None
  end.

(** A value, the rest of an array after a value, and the rest of an object
    after a member; [fuel] bounds the number of these steps. *)
Fixpoint json_value (fuel : nat) (cs : list ascii)
  : option (json * list ascii) :=
  match fuel with
  | O => None
  | S f =>
      match skip_space cs with
      | [] => None
      | c :: r =>
          if Ascii.eqb c "n" then
            option_map (fun r' => (JNull, r')) (expect (chars "ull") r)
          else if Ascii.eqb c "t" then
            option_map (fun r' => (JBool true, r')) (expect (chars "rue") r)
          else if Ascii.eqb c "f" then
            option_map (fun r' => (JBool false, r')) (expect (chars "alse") r)
          else if Ascii.eqb c "034" then
            option_map (fun p => (JStr (fst p), snd p)) (json_string r [])
          else if Ascii.eqb c "[" then
            match skip_space r with
            | "]"%char :: r' => Some (JArr [], r')
            | _ =>
                match json_value f r with
                | Some (v, r') =>
                    option_map (fun p => (JArr (v :: fst p), snd p))
                               (json_elems f r')
                | None => None
                end
            end
          else if Ascii.eqb c "{" then
            match skip_space r with
            | "}"%char :: r' => Some (JObj [], r')
            | _ =>
                option_map (fun p => (JObj (fst p), snd p)) (json_members f r)
            end
          else
            option_map (fun p => (JNum (fst p), snd p)) (json_number (c :: r))
      end
  end
with json_elems (fuel : nat) (cs : list ascii)
  : option (list json * list ascii) :=
  match fuel with
  | O => None
  | S f =>
      match skip_space cs with
      | "]"%char :: r => Some ([], r)
      | ","%char :: r =>
          match json_value f r with
          | Some (v, r') =>
              option_map (fun p => (v :: fst p, snd p)) (json_elems f r')
          | None => None
          end
      | _ => None
      end
  end
with json_members (fuel : nat) (cs : list ascii)
  : option (list (string * json) * list ascii) :=
  match fuel with
  | O => None
  | S f =>
      match skip_space cs with
      | "034"%char :: r =>
          match json_string r [] with
          | Some (k, r1) =>
              match skip_space r1 with
              | ":"%char :: r2 =>
                  match json_value f r2 with
                  | Some (v, r3) =>
                      match skip_space r3 with
                      | "}"%char :: r4 => Some ([(k, v)], r4)
                      | ","%char :: r4 =>
                          option_map (fun p => ((k, v) :: fst p, snd p))
                                     (json_members f r4)
                      | _ => None
                      end
                  | None => None
                  end
              | _ => None
              end
          | None => None
          end
      | _ => None
      end
  end.

Definition JSON_parse (s : string) : option json :=
  let cs := chars s in
  match json_value (2 * List.length cs + 2) cs with
  | Some (v, rest) =>
      match skip_space rest with
      | [] => Some v
      | _ => None
      end
  | None => None
  end.

(** *** [new URL] on plain absolute URLs

    The basic URL parser of the URL Standard without a base URL, for inputs
    of these forms: an ftp, http, https, ws or wss URL whose host is a
    domain of ASCII letters, digits, hyphens, underscores and dots that
    does not end in a number and has no punycode label; a URL of another
    scheme with an authority of the same alphabet, with a path only, or
    with an opaque path. On an input outside these forms (an IP address,
    a file URL, a host to be percent-decoded or mapped) the result is
    [None], which need not be what the platform does there. *)

Definition is_scheme_char (c : ascii) : bool :=
  is_alpha c || is_digit c
  || Ascii.eqb c "+" || Ascii.eqb c "-" || Ascii.eqb c ".".

Definition is_host_char (c : ascii) : bool :=
  is_alpha c || is_digit c
  || Ascii.eqb c "-" || Ascii.eqb c "_" || Ascii.eqb c ".".

Fixpoint drop_while (f : ascii -> bool) (cs : list ascii) : list ascii :=
  match cs with
  | c :: r => if f c then drop_while f r else cs
  | [] => []
  end.

Fixpoint take_until (f : ascii -> bool) (cs : list ascii)
  : list ascii * list ascii :=
  match cs with
  | c :: r =>
      if f c then ([], cs)
      else let (a, b) := take_until f r in (c :: a, b)
  | [] => ([], [])
  end.

(** Leading and trailing C0 controls and spaces removed, then every tab and
    newline. *)
Definition clean_input (cs : list ascii) : list ascii :=
  let c0_or_space := fun c => (code c <=? 32)%nat in
  let trimmed := rev (drop_while c0_or_space (rev (drop_while c0_or_space cs))) in
  filter (fun c => negb (existsb (Nat.eqb (code c)) [9; 10; 13])) trimmed.

(** The scheme, lower case, and what follows its colon. *)
Definition scan_scheme (cs : list ascii) : option (string * list ascii) :=
  match cs with
  | c :: _ =>
      if is_alpha c then
        match take_until (fun c => negb (is_scheme_char c)) cs with
        | (sch, ":"%char :: rest) => Some (JS.lower (text sch), rest)
        | _ => None
        end
      else None
  | [] => None
  end.

Definition default_port (scheme : string) : option N :=
  if String.eqb scheme "ftp" then Some 21%N
  else if String.eqb scheme "http" || String.eqb scheme "ws" then Some 80%N
  else if String.eqb scheme "https" || String.eqb scheme "wss" then Some 443%N
  else None.

Fixpoint digits_value (cs : list ascii) (acc : N) : option N :=
  match cs with
  | [] => Some acc
  | c :: r =>
      if is_digit c
      then digits_value r (acc * 10 + N.of_nat (code c - 48))%N
      else None
  end.

(** The port after the colon: [Some None] when it is empty or the default
    one, [None] when it is not a number below 65536. *)
Definition scan_port (scheme : string) (cs : list ascii)
  : option (option N) :=
  match cs with
  | [] => Some None
  | _ =>
      match digits_value cs 0%N with
      | Some p =>
          if (65535 <? p)%N then None
          else match default_port scheme with
               | Some d => if N.eqb p d then Some None else Some (Some p)
               | None => Some (Some p)
               end
      | None => None
      end
  end.

(** The text after the last [@] of an authority. *)
Fixpoint after_credentials (cs : list ascii) : list ascii :=
  match cs with
  | [] => []
  | c :: r =>
      if existsb (Ascii.eqb "@") r then after_credentials r
      else if Ascii.eqb c "@" then r else cs
  end.

Definition last_label (host : string) : string :=
  match rev (JS.split "." host) with
  | EmptyString :: l :: _ => l
  | l :: _ => l
  | [] => EmptyString
  end.

Fixpoint has_punycode_label (labels : list string) : bool :=
  match labels with
  | [] => false
  | l :: r => JS.startsWith "xn--" l || has_punycode_label r
  end.

(** A domain of the covered form, in lower case. *)
Definition plain_domain (cs : list ascii) : option string :=
  let host := JS.lower (text cs) in
  match cs, chars (last_label host) with
  | _ :: _, l :: _ =>
      if forallb is_host_char cs && negb (is_digit l)
         && negb (has_punycode_label (JS.split "." host))
      then Some host else None
  | _, _ => None
  end.

Definition is_path_end (c : ascii) : bool :=
  Ascii.eqb c "?" || Ascii.eqb c "#".

Definition URL_parse (s : string) : option URL :=
  match scan_scheme (clean_input (chars s)) with
  | None => None
  | Some (scheme, rest) =>
      if String.eqb scheme "file" then None
      else if tuple_origin_scheme scheme then
        let is_slash := fun c => Ascii.eqb c "/" || Ascii.eqb c "\" in
        let (authority, _) :=
          take_until (fun c => is_slash c || is_path_end c)
                     (drop_while is_slash rest) in
        let (host, port) :=
          take_until (Ascii.eqb ":") (after_credentials authority) in
        match plain_domain host, scan_port scheme (tl port) with
        | Some h, Some p => Some (mkURL scheme (Some h) p None)
        | _, _ => None
        end
      else
        match rest with
        | "/"%char :: "/"%char :: rest' =>
            let (authority, _) :=
              take_until (fun c => Ascii.eqb c "/" || is_path_end c) rest' in
            let (host, port) :=
              take_until (Ascii.eqb ":") (after_credentials authority) in
            if forallb is_host_char host then
              match scan_port scheme (tl port) with
              | Some p => Some (mkURL scheme (Some (text host)) p None)
              | None => None
              end
            else None
        | "/"%char :: _ => Some (mkURL scheme None None None)
        | _ =>
            let (path, _) := take_until is_path_end rest in
            Some (mkURL scheme None None (Some (text path)))
        end
  end.

Definition platform : Platform :=
  mkPlatform atob JSON_parse URL_parse.

End Reference.

(** ** Sample data *)

Module Sample.

Definition production : Env :=
  {| NODE_ENV := Some "production";
     DEV_AUTH_TOKEN := None;
     SKIP_AUTH := None;
     GOOGLE_CLIENT_ID := Some "1234.apps.googleusercontent.com";
     mcpDebugToken := None |}.

Definition development_skip_auth : Env :=
  {| NODE_ENV := Some "development";
     DEV_AUTH_TOKEN := None;
     SKIP_AUTH := Some "true";
     GOOGLE_CLIENT_ID := Some "1234.apps.googleusercontent.com";
     mcpDebugToken := None |}.

Definition unauthorized : Response :=
  {| resp_ok := false;
     resp_status := 401%N;
     resp_statusText := "Unauthorized";
     json_body := None |}.

(** A provider that rejects every token. *)
Definition rejecting : Provider :=
  {| verifyIdToken := fun _ _ => IdRejected "Invalid token signature";
     fetch := fun _ _ => FetchResolved unauthorized |}.

Definition profile : json :=
  JObj [("id", JStr "123"); ("email", JStr "a@b.com")].

(** A provider that rejects every ID token and knows every access token. *)
Definition profile_only : Provider :=
  {| verifyIdToken := fun _ _ => IdRejected "Wrong number of segments";
     fetch := fun _ _ =>
       FetchResolved {| resp_ok := true;
                        resp_status := 200%N;
                        resp_statusText := "OK";
                        json_body := Some profile |} |}.

Definition request (url : string) (headers : Headers) : Request :=
  {| req_url := url; req_method := "POST"; req_headers := headers |}.

Definition mcp_url : string := "https://api.example.com/api/mcp".

End Sample.

(** ** The vocabulary of the properties *)

(** The number of occurrences of a character. *)
Fixpoint count_char (sep : ascii) (s : string) : nat :=
  match s with
  | EmptyString => 0
  | String c r => (if Ascii.eqb c sep then 1 else 0) + count_char sep r
  end.

(** The profile a userinfo lookup yields: the body of a response with a
    success status, when it parses to something else than [null]. *)
Definition profile_of (o : FetchOutcome) : option json :=
  match o with
  | FetchRejected => None
  | FetchResolved r =>
      if resp_ok r then
        match json_body r with
        | Some JNull => None
        | body => body
        end
      else None
  end.

(** A property of a value that is not [null]. *)
Definition prop_of (u : json) (k : string) : jsval :=
  match get_prop u k with
  | Some v => v
  | None => None
  end.

(** The context built from a profile. *)
Definition profile_context (bearerToken baseUrl tokenType : string) (u : json)
  : AuthInfo :=
  {| token := bearerToken;
     scopes := mcpScopes;
     clientId := prop_of u "id";
     expiresAt := None;
     extra := [("email", prop_of u "email");
               ("name", prop_of u "name");
               ("picture", prop_of u "picture");
               ("verified", prop_of u "verified_email");
               ("locale", prop_of u "locale");
               ("provider", str "google");
               ("tokenType", str tokenType);
               ("mcpCompliant", str "2025-06-18");
               ("audience", str baseUrl)] |}.

Definition userinfo_call (tok : string) : Event :=
  CallFetch userinfo_url ("Bearer " ++ tok).

(** A call of the trace to which the provider answered with an identity: a
    ticket with a payload, or a profile. *)
Definition call_verified (prov : Provider) (e : Event) : bool :=
  match e with
  | CallVerifyIdToken idToken audience =>
      match verifyIdToken prov idToken audience with
      | IdTicket (Some _) => true
      | _ => false
      end
  | CallFetch url authorization =>
      match profile_of (fetch prov url authorization) with
      | Some _ => true
      | None => false
      end
  end.

Definition is_fetch (e : Event) : bool :=
  match e with
  | CallFetch _ _ => true
  | CallVerifyIdToken _ _ => false
  end.

(** Projections of a run and the test on its calls, without unfolding the
    strings. *)
Ltac run_simpl :=
  cbn [fst snd existsb filter List.length call_verified is_fetch
       userinfo_call orb option_map] in *.

Ltac destruct_fetch r :=
  match goal with
  | |- context [fetch ?p ?u ?a] => destruct (fetch p u a) as [|r]
  end.

(** A value that one of the two branches of the loop accepts. *)
Definition bearer_prefixed (value : string) : Prop :=
  JS.startsWith "Bearer " value = true \/ JS.startsWith "bearer " value = true.

(** Identity of scheme, host and port. *)
Definition same_scheme_host_port (u1 u2 : URL) : Prop :=
  url_scheme u1 = url_scheme u2
  /\ url_host u1 = url_host u2
  /\ url_port u1 = url_port u2.

(** A byte. *)
Definition is_byte (b : Z) : Prop := (0 <= b < 256)%Z.

Fixpoint colon_free (s : string) : bool :=
  match s with
  | EmptyString => true
  | String c r => negb (Ascii.eqb c ":") && colon_free r
  end.

(** A URL with a tuple origin whose host is a domain or an IPv4 address: it
    is there and has no colon. *)
Definition plain_tuple_url (u : URL) : Prop :=
  tuple_origin_scheme (url_scheme u) = true
  /\ exists h, url_host u = Some h /\ colon_free h = true.

Definition port_suffix (p : option N) : string :=
  match p with
  | Some n => ":" ++ decimal_of_N n
  | None => EmptyString
  end.

(** ** [formatUserInfo] *)

(** What the source needs of JavaScript numbers, which the model keeps as
    the text of their literal: whether the number is truthy (it is not
    zero), and the text a template literal gives it. *)
Record NumberOps : Type := mkNumberOps {
  number_truthy : string -> bool;
  number_to_string : string -> string
}.

(** [extra.k] for a key that no prototype defines: the member, [undefined]
    when there is none. The contexts that the source builds have no key
    twice. *)
Definition extra_get (extra : list (string * jsval)) (k : string) : jsval :=
  match find (fun kv => String.eqb (fst kv) k) extra with
  | Some kv => snd kv
  | None => None
  end.

(** An [AuthInfo] as the SDK declares the type: [extra] may be missing. A
    context that [verifyGoogleToken] builds always has one. *)
Record AnyAuthInfo : Type := mkAnyAuthInfo {
  any_token : string;
  any_scopes : list string;
  any_clientId : jsval;
  any_expiresAt : option Z;
  any_extra : option (list (string * jsval))
}.

Definition of_context (authInfo : AuthInfo) : AnyAuthInfo :=
  {| any_token := token authInfo;
     any_scopes := scopes authInfo;
     any_clientId := clientId authInfo;
     any_expiresAt := expiresAt authInfo;
     any_extra := Some (extra authInfo) |}.

Section Format.

Variable num : NumberOps.

(** Truthiness of a value: [undefined], [null], [false], zero and the empty
    string are falsy. *)
Definition js_truthy (v : jsval) : bool :=
  match v with
  | None => false
  | Some JNull => false
  | Some (JBool b) => b
  | Some (JNum literal) => number_truthy num literal
  | Some (JStr EmptyString) => false
  | Some (JStr (String _ _)) => true
  | Some (JArr _) => true
  | Some (JObj _) => true
  end.

(** The text of a parsed value in a template literal; [None] when the
    conversion throws a [TypeError]. An array is its elements joined by
    commas, [null] ones left empty. An object is [[object Object]], unless
    it has a member [toString] of its own: that member is no function,
    [valueOf] gives back the object, and the conversion throws. *)
Fixpoint js_to_string (v : json) : option string :=
  match v with
  | JNull => Some "null"
  | JBool true => Some "true"
  | JBool false => Some "false"
  | JNum literal => Some (number_to_string num literal)
  | JStr s => Some s
  | JArr elems =>
      (fix join (l : list json) : option string :=
         match l with
         | [] => Some EmptyString
         | e :: r =>
             match (match e with
                    | JNull => Some EmptyString
                    | _ => js_to_string e
                    end) with
             | None => None
             | Some first =>
                 match r with
                 | [] => Some first
                 | _ :: _ =>
                     match join r with
                     | Some others => Some (first ++ "," ++ others)%string
                     | None => None
                     end
                 end
             end
         end) elems
  | JObj members =>
      if existsb (fun kv => String.eqb (fst kv) "toString") members
      then None
      else Some "[object Object]"
  end.

Definition template_text (v : jsval) : option string :=
  match v with
  | None => Some "undefined"
  | Some j => js_to_string j
  end.

(** The values of [extra] are [undefined] or parsed values, as in the
    contexts that [verifyGoogleToken] builds. *)
Definition formatUserInfo (authInfo : option AnyAuthInfo) : Completion string :=
  match authInfo with
  | None => Returns EmptyString
  | Some authInfo =>
      match any_extra authInfo with
      | None => Returns EmptyString
      | Some extra =>
          let email := extra_get extra "email" in
          let name := extra_get extra "name" in
          if js_truthy name && js_truthy email then
            match template_text name, template_text email with
            | Some n, Some e =>
                Returns (" (authenticated as " ++ n
                         ++ " <" ++ e ++ ">)")%string
            | _, _ => Throws TypeError
            end
          else if js_truthy email then
            match template_text email with
            | Some e => Returns (" (authenticated as " ++ e ++ ")")%string
            | None => Throws TypeError
            end
          else if js_truthy name then
            match template_text name with
            | Some n => Returns (" (authenticated as " ++ n ++ ")")%string
            | None => Throws TypeError
            end
          else Returns " (authenticated user)"
      end
  end.

End Format.

(** ** More vocabulary *)


(** The headers with their names in lower case. *)
Definition lower_names (hs : Headers) : Headers :=
  map (fun h => (JS.lower (fst h), snd h)) hs.


(** The place of a character in a string, its length when it is not
    there. *)
Fixpoint index_in (c : ascii) (s : string) : nat :=
  match s with
  | EmptyString => 0
  | String d r => if Ascii.eqb c d then 0 else S (index_in c r)
  end.

Definition base64url_value (c : ascii) : Z :=
  Z.of_nat (index_in c base64url_alphabet).

(** The bytes of a base64url text without padding. *)
Fixpoint base64url_decode (s : string) : list Z :=
  match s with
  | String a (String b EmptyString) =>
      [base64url_value a * 4 + base64url_value b / 16]%Z
  | String a (String b (String c EmptyString)) =>
      [base64url_value a * 4 + base64url_value b / 16;
       base64url_value b mod 16 * 16 + base64url_value c / 4]%Z
  | String a (String b (String c (String d r))) =>
      (base64url_value a * 4 + base64url_value b / 16
       :: base64url_value b mod 16 * 16 + base64url_value c / 4
       :: base64url_value c mod 4 * 64 + base64url_value d
       :: base64url_decode r)%Z
  | _ => []
  end.

(** ** [verifyPKCE] on all strings *)

(** A JavaScript string in full: its UTF-16 code units, each below 65536.
    A [string] of the model stands for the string with the same code
    units, all below 256. *)
Definition JSString : Type := list N.

Definition code_units (s : string) : JSString :=
  map (fun c => N.of_nat (nat_of_ascii c)) (list_ascii_of_string s).

Fixpoint units_eqb (a b : JSString) : bool :=
  match a, b with
  | [], [] => true
  | x :: a', y :: b' => N.eqb x y && units_eqb a' b'
  | _, _ => false
  end.

(** The bytes of U+FFFD, which stand for a surrogate without its pair. *)
Definition utf8_replacement : list Z := [239; 191; 189]%Z.

(** The UTF-8 bytes that [update] hashes for a string: one to three bytes
    for a code unit that is no surrogate, four for a high surrogate
    followed by a low one, the replacement character for any other
    surrogate. *)
Fixpoint utf8_of_units (s : JSString) : list Z :=
  match s with
  | [] => []
  | u :: r =>
      let n := Z.of_N u in
      if (n <? 128)%Z then n :: utf8_of_units r
      else if (n <? 2048)%Z then
        (192 + n / 64)%Z :: (128 + n mod 64)%Z :: utf8_of_units r
      else if ((55296 <=? n) && (n <? 56320))%Z then
        match r with
        | l :: r' =>
            let m := Z.of_N l in
            if ((56320 <=? m) && (m <? 57344))%Z then
              let cp := (65536 + (n - 55296) * 1024 + (m - 56320))%Z in
              (240 + cp / 262144)%Z
              :: (128 + cp / 4096 mod 64)%Z
              :: (128 + cp / 64 mod 64)%Z
              :: (128 + cp mod 64)%Z :: utf8_of_units r'
            else utf8_replacement ++ utf8_of_units r
        | [] => utf8_replacement
        end
      else if ((56320 <=? n) && (n <? 57344))%Z then
        utf8_replacement ++ utf8_of_units r
      else
        (224 + n / 4096)%Z
        :: (128 + n / 64 mod 64)%Z
        :: (128 + n mod 64)%Z :: utf8_of_units r
  end.

(** [verifyPKCE] on two JavaScript strings; [===] compares them code unit
    by code unit. *)
Definition verifyPKCE_utf16 (codeChallenge codeVerifier : JSString) : bool :=
  let hash := base64url (SHA256.digest (utf8_of_units codeVerifier)) in
  units_eqb codeChallenge (code_units hash).

(** * Properties *)

(** ** Splitting *)

Lemma split_not_nil (sep : ascii) (s : string) : JS.split sep s <> [].
Proof.
  induction s as [|c r IH]; simpl; [discriminate|].
  destruct (Ascii.eqb c sep); [discriminate|].
  destruct (JS.split sep r); [contradiction|discriminate].
Qed.

(** A string splits into one segment more than it has separators. *)
Lemma split_length (sep : ascii) (s : string) :
  List.length (JS.split sep s) = S (count_char sep s).
Proof.
  induction s as [|c r IH]; simpl; [reflexivity|].
  destruct (Ascii.eqb c sep); simpl; [now rewrite IH|].
  destruct (JS.split sep r) eqn:E; simpl in *; [discriminate|exact IH].
Qed.

(** ** [validateTokenAudience] *)

(** C5. A token that does not split on the dot into exactly three segments
    passes the audience check, whatever the expected audience and whatever
    the platform decoders do. *)
Theorem validateTokenAudience_non_jwt :
  forall (pf : Platform) (token expectedAudience : string),
    List.length (JS.split "." token) <> 3 ->
    validateTokenAudience pf token expectedAudience = true.
Proof.
  intros pf token aud Hlen.
  unfold validateTokenAudience, validateTokenAudience_try.
  apply Nat.eqb_neq in Hlen. now rewrite Hlen.
Qed.

Lemma validateTokenAudience_non_jwt_witness :
  List.length (JS.split "." "ya29.a0AfH6SMBx") <> 3
  /\ validateTokenAudience Reference.platform "ya29.a0AfH6SMBx"
       "https://api.example.com" = true.
Proof.
  split.
  - vm_compute. discriminate.
  - apply (validateTokenAudience_non_jwt Reference.platform).
    vm_compute. discriminate.
Defined.

(** C10. A token of three segments whose middle segment is not base64
    ([atob] throws) or decodes to a text that is not JSON ([JSON.parse]
    throws) fails the audience check, whatever the expected audience. *)
Theorem validateTokenAudience_undecodable_payload :
  forall (pf : Platform) (token expectedAudience : string),
    List.length (JS.split "." token) = 3 ->
    (atob pf (nth 1 (JS.split "." token) EmptyString) = None
     \/ exists text,
          atob pf (nth 1 (JS.split "." token) EmptyString) = Some text
          /\ JSON_parse pf text = None) ->
    validateTokenAudience pf token expectedAudience = false.
Proof.
  intros pf token aud Hlen Hbad.
  unfold validateTokenAudience, validateTokenAudience_try.
  rewrite Hlen; simpl.
  unfold decode_segment.
  destruct Hbad as [Hatob | [text [Hatob Hjson]]]; rewrite Hatob.
  - reflexivity.
  - now rewrite Hjson.
Qed.

Lemma validateTokenAudience_undecodable_payload_witness :
  List.length (JS.split "." "e30.YWJj.sig") = 3
  /\ atob Reference.platform (nth 1 (JS.split "." "e30.YWJj.sig") EmptyString)
     = Some "abc"
  /\ JSON_parse Reference.platform "abc" = None
  /\ validateTokenAudience Reference.platform "e30.YWJj.sig"
       "https://api.example.com" = false.
Proof.
  split; [reflexivity|]. split; [reflexivity|]. split; [reflexivity|].
  apply (validateTokenAudience_undecodable_payload Reference.platform).
  - reflexivity.
  - right. exists "abc". split; reflexivity.
Defined.

(** The other outcomes of the check on a token of three segments, on the
    reference platform: the audience as a string, as an array, absent, and a
    payload that is the JSON [null]. *)
Example audience_matches :
  validateTokenAudience Reference.platform
    "e30.eyJhdWQiOiJodHRwczovL2FwaS5leGFtcGxlLmNvbSJ9.sig"
    "https://api.example.com" = true.
Proof. reflexivity. Qed.

Example audience_differs :
  validateTokenAudience Reference.platform
    "e30.eyJhdWQiOiJodHRwczovL2FwaS5leGFtcGxlLmNvbSJ9.sig"
    "https://other.example.com" = false.
Proof. reflexivity. Qed.

Example audience_in_array :
  validateTokenAudience Reference.platform
    "e30.eyJhdWQiOlsiYSIsImh0dHBzOi8vYXBpLmV4YW1wbGUuY29tIl19.sig"
    "https://api.example.com" = true.
Proof. reflexivity. Qed.

Example audience_absent :
  validateTokenAudience Reference.platform "e30.e30.sig"
    "https://api.example.com" = false.
Proof. reflexivity. Qed.

Example audience_null_payload :
  validateTokenAudience Reference.platform "e30.bnVsbA==.sig" "x" = false.
Proof. reflexivity. Qed.

(** ** [verifyPKCE] *)

Lemma base64url_digit_not_pad (n : Z) :
  (0 <= n < 64)%Z -> base64url_digit n <> "="%char.
Proof.
  intros Hn.
  assert (H : exists k, (k < 64)%nat /\ n = Z.of_nat k).
  { exists (Z.to_nat n). split; lia. }
  destruct H as [k [Hk ->]].
  unfold base64url_digit. rewrite Nat2Z.id.
  do 64 (destruct k as [|k]; [vm_compute; discriminate|]). lia.
Qed.

(** Induction on a list of bytes three at a time, as the encoder reads
    it. *)
Lemma triples_ind (P : list Z -> Prop) :
  P [] -> (forall a, P [a]) -> (forall a b, P [a; b]) ->
  (forall a b c rest, P rest -> P (a :: b :: c :: rest)) ->
  forall bs, P bs.
Proof.
  intros H0 H1 H2 H3.
  fix IH 1.
  intros [|a [|b [|c rest]]];
    [exact H0|apply H1|apply H2|apply H3; apply IH].
Qed.

(** The encoder never writes the padding character. *)
Lemma base64url_unpadded (bs : list Z) :
  Forall is_byte bs ->
  ~ In "="%char (list_ascii_of_string (base64url bs)).
Proof.
  unfold is_byte.
  induction bs as [|a|a b|a b c rest IH] using triples_ind; intros Hb Hin.
  - contradiction.
  - inversion_clear Hb as [|? ? Ha _]. simpl in Hin.
    destruct Hin as [Hin|[Hin|[]]];
      (eapply base64url_digit_not_pad; [|exact Hin]);
      Z.div_mod_to_equations; lia.
  - inversion_clear Hb as [|? ? Ha Hb']. inversion_clear Hb' as [|? ? Hb _].
    simpl in Hin.
    destruct Hin as [Hin|[Hin|[Hin|[]]]];
      (eapply base64url_digit_not_pad; [|exact Hin]);
      Z.div_mod_to_equations; lia.
  - inversion_clear Hb as [|? ? Ha Hb']. inversion_clear Hb' as [|? ? Hb Hc'].
    inversion_clear Hc' as [|? ? Hc Hrest].
    simpl in Hin.
    destruct Hin as [Hin|[Hin|[Hin|[Hin|Hin]]]];
      try ((eapply base64url_digit_not_pad; [|exact Hin]);
           Z.div_mod_to_equations; lia).
    now apply IH.
Qed.

Lemma be_bytes_are_bytes (len : nat) (x : Z) :
  Forall is_byte (SHA256.be_bytes len x).
Proof.
  induction len as [|l IH]; simpl; constructor; [|exact IH].
  unfold is_byte. apply Z.mod_pos_bound. lia.
Qed.

Lemma compress_length (h block : list Z) :
  List.length h = 8 -> List.length (SHA256.compress h block) = 8.
Proof.
  intros Hh. unfold SHA256.compress.
  rewrite length_map, length_combine, Hh. reflexivity.
Qed.

Lemma fold_compress_length (blocks : list (list Z)) (h : list Z) :
  List.length h = 8 ->
  List.length (fold_left SHA256.compress blocks h) = 8.
Proof.
  revert h. induction blocks as [|b blocks IH]; intros h Hh; simpl.
  - exact Hh.
  - apply IH. now apply compress_length.
Qed.

(** A digest is thirty-two bytes. *)
Lemma digest_shape (msg : list Z) :
  List.length (SHA256.digest msg) = 32
  /\ Forall is_byte (SHA256.digest msg).
Proof.
  unfold SHA256.digest.
  set (ws := SHA256.words _ _).
  set (h := fold_left SHA256.compress _ _).
  assert (Hh : List.length h = 8) by (apply fold_compress_length; reflexivity).
  split.
  - destruct h as [|h0 [|h1 [|h2 [|h3 [|h4 [|h5 [|h6 [|h7 [|h8 h]]]]]]]]];
      try discriminate Hh.
    reflexivity.
  - apply Forall_flat_map, Forall_forall. intros x _.
    apply be_bytes_are_bytes.
Qed.

(** The base64url text of thirty-two bytes has forty-three characters. *)
Lemma base64url_length_32 (bs : list Z) :
  List.length bs = 32 -> String.length (base64url bs) = 43.
Proof.
  intros H.
  do 32 (destruct bs as [|? bs]; [discriminate H|]).
  destruct bs; [|discriminate H].
  cbn [base64url String.length]. reflexivity.
Qed.

Lemma units_eqb_eq (a b : JSString) : units_eqb a b = true <-> a = b.
Proof.
  revert b. induction a as [|x a IH]; intros [|y b]; simpl;
    try (split; [discriminate|discriminate]); [split; reflexivity|].
  rewrite andb_true_iff, N.eqb_eq, IH. split.
  - intros [-> ->]. reflexivity.
  - intros [= -> ->]. now split.
Qed.

Lemma code_units_inj (s t : string) : code_units s = code_units t -> s = t.
Proof.
  unfold code_units. intros H.
  rewrite <- (string_of_list_ascii_of_string s).
  rewrite <- (string_of_list_ascii_of_string t). f_equal.
  revert H. generalize (list_ascii_of_string t).
  induction (list_ascii_of_string s) as [|c l IH]; intros [|d l'] H;
    try discriminate H; [reflexivity|].
  cbn [map] in H. injection H as Hc Hl. f_equal; [|now apply IH].
  apply Nat2N.inj in Hc.
  rewrite <- (ascii_nat_embedding c), <- (ascii_nat_embedding d).
  now rewrite Hc.
Qed.

(** On a string of code units below 256 the two encoders agree. *)
Lemma utf8_of_code_units (s : string) : utf8_of_units (code_units s) = utf8 s.
Proof.
  unfold code_units.
  induction s as [|c r IH]; [reflexivity|].
  cbn [list_ascii_of_string map utf8_of_units utf8].
  rewrite nat_N_Z, IH.
  pose proof (nat_ascii_bounded c) as Hc.
  destruct (Z.ltb_spec (Z.of_nat (nat_of_ascii c)) 128) as [Hlt|Hge];
    [reflexivity|].
  destruct (Z.ltb_spec (Z.of_nat (nat_of_ascii c)) 2048) as [Hlt'|Hge'];
    [reflexivity|lia].
Qed.

Lemma verifyPKCE_agrees (codeChallenge codeVerifier : string) :
  verifyPKCE codeChallenge codeVerifier
  = verifyPKCE_utf16 (code_units codeChallenge) (code_units codeVerifier).
Proof.
  unfold verifyPKCE, verifyPKCE_utf16, sha256_base64url.
  rewrite utf8_of_code_units.
  set (hash := base64url (SHA256.digest (utf8 codeVerifier))).
  destruct (String.eqb_spec codeChallenge hash) as [->|Hne].
  - symmetry. now apply units_eqb_eq.
  - destruct (units_eqb (code_units codeChallenge) (code_units hash)) eqn:E;
      [|reflexivity].
    apply units_eqb_eq, code_units_inj in E. contradiction.
Qed.

(** C6. [verifyPKCE] holds exactly of the challenges that are the base64url
    text of the SHA-256 digest of the UTF-8 bytes of the verifier, for all
    JavaScript strings, the empty verifier included; on the strings of code
    units below 256 that is [verifyPKCE] of the model. The text is without
    padding: forty-three characters, none of which is the padding
    character. The digest is SHA-256: it has the published values on the
    empty message and on [abc] (FIPS 180-4), on the two-block message of
    the standard, on messages of 55, 56, 64 and 140 bytes, on the example
    of RFC 7636, appendix B, and on a verifier that needs every branch of
    the UTF-8 encoder. *)
Theorem verifyPKCE_iff :
  (forall codeChallenge codeVerifier : JSString,
      verifyPKCE_utf16 codeChallenge codeVerifier = true
      <-> codeChallenge
          = code_units
              (base64url (SHA256.digest (utf8_of_units codeVerifier))))
  /\ (forall codeChallenge codeVerifier : string,
        verifyPKCE codeChallenge codeVerifier
        = verifyPKCE_utf16 (code_units codeChallenge)
                           (code_units codeVerifier)
        /\ (verifyPKCE codeChallenge codeVerifier = true
            <-> codeChallenge
                = base64url (SHA256.digest (utf8 codeVerifier))))
  /\ (forall codeVerifier : JSString,
        String.length
          (base64url (SHA256.digest (utf8_of_units codeVerifier))) = 43
        /\ ~ In "="%char
             (list_ascii_of_string
                (base64url (SHA256.digest (utf8_of_units codeVerifier)))))
  /\ SHA256.digest []
     = [0xe3; 0xb0; 0xc4; 0x42; 0x98; 0xfc; 0x1c; 0x14;
        0x9a; 0xfb; 0xf4; 0xc8; 0x99; 0x6f; 0xb9; 0x24;
        0x27; 0xae; 0x41; 0xe4; 0x64; 0x9b; 0x93; 0x4c;
        0xa4; 0x95; 0x99; 0x1b; 0x78; 0x52; 0xb8; 0x55]%Z
  /\ SHA256.digest (utf8 "abc")
     = [0xba; 0x78; 0x16; 0xbf; 0x8f; 0x01; 0xcf; 0xea;
        0x41; 0x41; 0x40; 0xde; 0x5d; 0xae; 0x22; 0x23;
        0xb0; 0x03; 0x61; 0xa3; 0x96; 0x17; 0x7a; 0x9c;
        0xb4; 0x10; 0xff; 0x61; 0xf2; 0x00; 0x15; 0xad]%Z
  /\ sha256_base64url EmptyString
     = "47DEQpj8HBSa-_TImW-5JCeuQeRkm5NMpJWZG3hSuFU"
  /\ sha256_base64url
       "abcdbcdecdefdefgefghfghighijhijkijkljklmklmnlmnomnopnopq"
     = "JI1qYdIGOLjlwCaTDD5gOaM85Flk_yFn9uzt1BnbBsE"
  /\ sha256_base64url "dBjftJeZ4CVP-mB92K27uhbUJU1p1r_wW1gFWFOEjXk"
     = "E9Melhoa2OwvFrEMTJguCHaoeK1t8URWbuGJSstw-cM"
  /\ sha256_base64url
       "0123456789012345678901234567890123456789012345678901234"
     = "801aD4DAy_hMjAuQIYwiY3q9GZllJJ2nNqIBQ8jJydk"
  /\ sha256_base64url
       "01234567890123456789012345678901234567890123456789012345"
     = "g6oDS9qD5Fig3Jy84NTjVHFqoP93DtN6wO0rKSBS5K8"
  /\ sha256_base64url
       "0123456789012345678901234567890123456789012345678901234567890123"
     = "lnTZ4HhTW3zsQyhDh6buOZVhiOc1qFRSsAULVTQc2lY"
  /\ sha256_base64url
       ("0123456789abcdefghijklmnopqrstuvwxyzABCDEFGHIJKLMNOPQRSTUVWXYZ-._~"
        ++ "0123456789abcdefghijklmnopqrstuvwxyzABCDEFGHIJKLMNOPQRSTUVWXYZ-._~"
        ++ "01234567")
     = "Ud85witKYob0c9RhfH_A-Jq2TqZEM9h_EPurh1e87Nc"
  /\ utf8_of_units [233; 8364; 55357; 56832; 55296; 97; 56320]%N
     = [0xc3; 0xa9; 0xe2; 0x82; 0xac; 0xf0; 0x9f; 0x98; 0x80;
        0xef; 0xbf; 0xbd; 0x61; 0xef; 0xbf; 0xbd]%Z
  /\ base64url
       (SHA256.digest
          (utf8_of_units [233; 8364; 55357; 56832; 55296; 97; 56320]%N))
     = "9PIE8npEnaYVXCKKaqLmN-2Y3wD5dwyYmas4Jt4AHZA".
Proof.
  split; [|split; [|split]].
  - intros c v. unfold verifyPKCE_utf16. apply units_eqb_eq.
  - intros c v. split; [apply verifyPKCE_agrees|].
    unfold verifyPKCE, sha256_base64url. apply String.eqb_eq.
  - intros v.
    destruct (digest_shape (utf8_of_units v)) as [Hlen Hbytes].
    split; [now apply base64url_length_32|now apply base64url_unpadded].
  - repeat split; vm_compute; reflexivity.
Qed.

(** The challenge of RFC 7636, appendix B, is accepted for its verifier and
    refused for the empty verifier, whose challenge is another one. *)
Lemma verifyPKCE_iff_witness :
  verifyPKCE_utf16
    (code_units "E9Melhoa2OwvFrEMTJguCHaoeK1t8URWbuGJSstw-cM")
    (code_units "dBjftJeZ4CVP-mB92K27uhbUJU1p1r_wW1gFWFOEjXk") = true
  /\ verifyPKCE "47DEQpj8HBSa-_TImW-5JCeuQeRkm5NMpJWZG3hSuFU" EmptyString
     = true
  /\ verifyPKCE "E9Melhoa2OwvFrEMTJguCHaoeK1t8URWbuGJSstw-cM" EmptyString
     = false.
Proof.
  split; [|split].
  - apply (proj1 verifyPKCE_iff). vm_compute. reflexivity.
  - apply (proj2 (proj1 (proj2 verifyPKCE_iff) _ _)). vm_compute. reflexivity.
  - destruct (verifyPKCE "E9Melhoa2OwvFrEMTJguCHaoeK1t8URWbuGJSstw-cM"
                EmptyString) eqn:E; [|reflexivity].
    apply (proj2 (proj1 (proj2 verifyPKCE_iff) _ _)) in E.
    vm_compute in E. discriminate E.
Defined.

(** The digest of the empty verifier, the example of RFC 7636, appendix B,
    and a message of two blocks. *)
Example verifyPKCE_empty_verifier :
  verifyPKCE "47DEQpj8HBSa-_TImW-5JCeuQeRkm5NMpJWZG3hSuFU" EmptyString = true
  /\ verifyPKCE EmptyString EmptyString = false.
Proof. split; vm_compute; reflexivity. Qed.

Example sha256_two_blocks :
  sha256_base64url
    "abcdbcdecdefdefgefghfghighijhijkijkljklmklmnlmnomnopnopq"
  = "JI1qYdIGOLjlwCaTDD5gOaM85Flk_yFn9uzt1BnbBsE".
Proof. vm_compute. reflexivity. Qed.

Example verifyPKCE_rfc7636 :
  verifyPKCE "E9Melhoa2OwvFrEMTJguCHaoeK1t8URWbuGJSstw-cM"
             "dBjftJeZ4CVP-mB92K27uhbUJU1p1r_wW1gFWFOEjXk" = true
  /\ verifyPKCE "E9Melhoa2OwvFrEMTJguCHaoeK1t8URWbuGJSstw-cM="
                "dBjftJeZ4CVP-mB92K27uhbUJU1p1r_wW1gFWFOEjXk" = false.
Proof. split; vm_compute; reflexivity. Qed.

(** ** What a run of [verifyGoogleToken] does *)

Lemma access_token_info_run (tok base tokenType : string) (u : json)
    (tr : list Event) :
  access_token_info tok base tokenType u tr =
    match u with
    | JNull => (tr, Throws TypeError)
    | _ => (tr, Returns (profile_context tok base tokenType u))
    end.
Proof. destruct u; reflexivity. Qed.

Section Runs.

Variable env : Env.
Variable prov : Provider.
Variable pf : Platform.

(** Every path of the function after the credential is known, for a request
    whose URL parses. *)
Lemma verify_bearer_run (req : Request) (tok base : string) :
  origin_of pf (req_url req) = Some base ->
  run (verify_bearer env prov pf req tok) =
    if Nat.eqb (List.length (JS.split "." tok)) 3 then
      match verifyIdToken prov tok (GOOGLE_CLIENT_ID env) with
      | IdTicket payload =>
          ([CallVerifyIdToken tok (GOOGLE_CLIENT_ID env)],
           Returns (option_map (id_token_info tok base) payload))
      | IdRejected _ =>
          ([CallVerifyIdToken tok (GOOGLE_CLIENT_ID env); userinfo_call tok],
           Returns (option_map
                      (profile_context tok base "access_token_fallback")
                      (profile_of (fetch prov userinfo_url ("Bearer " ++ tok)))))
      end
    else if JS.startsWith "ya29." tok then
      ([userinfo_call tok],
       Returns (option_map (profile_context tok base "access_token")
                  (profile_of (fetch prov userinfo_url ("Bearer " ++ tok)))))
    else ([], Returns None).
Proof.
  intros Hbase.
  unfold run, verify_bearer, bind, try_catch, or_throw, ret, throw.
  rewrite Hbase.
  destruct (Nat.eqb (List.length (JS.split "." tok)) 3).
  - unfold call_verifyIdToken, call_fetch, userinfo_call, profile_of. simpl.
    destruct (verifyIdToken prov tok (GOOGLE_CLIENT_ID env)) as [msg|[p|]];
      try reflexivity.
    destruct_fetch r; [reflexivity|].
    destruct (resp_ok r); simpl; [|reflexivity].
    destruct (json_body r) as [u|]; [|reflexivity].
    rewrite access_token_info_run. now destruct u.
  - destruct (JS.startsWith "ya29." tok); [|reflexivity].
    unfold call_fetch, userinfo_call, profile_of. simpl.
    destruct_fetch r; [reflexivity|].
    destruct (resp_ok r); simpl; [|reflexivity].
    destruct (json_body r) as [u|]; [|reflexivity].
    rewrite access_token_info_run. now destruct u.
Qed.

(** With a URL that does not parse, [new URL] throws before the [try]. *)
Lemma verify_bearer_bad_url (req : Request) (tok : string) :
  origin_of pf (req_url req) = None ->
  run (verify_bearer env prov pf req tok) = ([], Throws TypeError).
Proof.
  intros Hbad. unfold run, verify_bearer, bind, or_throw, throw.
  now rewrite Hbad.
Qed.

(** The three ways the function goes on after the development block. *)
Lemma verifyGoogleToken_cases (req : Request) (arg : option string) :
  (development_bypass env (extract_token req arg) = DevBypass
   /\ credential env req arg = None
   /\ run (verifyGoogleToken env prov pf req arg)
      = ([], Returns (Some dev_bypass_info)))
  \/ (development_bypass env (extract_token req arg) <> DevBypass
      /\ credential env req arg = None
      /\ run (verifyGoogleToken env prov pf req arg) = ([], Returns None))
  \/ (exists tok,
        credential env req arg = Some tok
        /\ run (verifyGoogleToken env prov pf req arg)
           = run (verify_bearer env prov pf req tok)).
Proof.
  unfold credential, verifyGoogleToken.
  destruct (development_bypass env (extract_token req arg)) as [|[[|c t]|]].
  - left. repeat split.
  - right; left. repeat split; discriminate.
  - right; right. exists (String c t). split; reflexivity.
  - right; left. repeat split; discriminate.
Qed.

Lemma verifyGoogleToken_credential (req : Request) (arg : option string)
    (tok : string) :
  credential env req arg = Some tok ->
  run (verifyGoogleToken env prov pf req arg)
  = run (verify_bearer env prov pf req tok).
Proof.
  intros Hc.
  destruct (verifyGoogleToken_cases req arg)
    as [[_ [Hn _]]|[[_ [Hn _]]|[tok' [Hc' Hrun]]]]; try congruence.
Qed.

End Runs.

(** ** Header extraction *)

Lemma startsWith_app (p t : string) : JS.startsWith p (p ++ t)%string = true.
Proof.
  induction p as [|a p IH]; simpl; [reflexivity|].
  now rewrite Ascii.eqb_refl, IH.
Qed.

Lemma substring_from_app (p t : string) :
  JS.substring_from (String.length p) (p ++ t)%string = t.
Proof. induction p as [|a p IH]; simpl; [reflexivity|exact IH]. Qed.

Lemma startsWith_inv (p s : string) :
  JS.startsWith p s = true ->
  s = (p ++ JS.substring_from (String.length p) s)%string.
Proof.
  revert s. induction p as [|a p IH]; intros s H; simpl; [reflexivity|].
  destruct s as [|b s]; simpl in H; [discriminate|].
  apply andb_true_iff in H. destruct H as [Hab Hps].
  apply Ascii.eqb_eq in Hab. subst b. f_equal. now apply IH.
Qed.

Lemma strip_bearer_iff (value t : string) :
  strip_bearer value = Some t
  <-> value = ("Bearer " ++ t)%string \/ value = ("bearer " ++ t)%string.
Proof.
  unfold strip_bearer. split.
  - destruct (JS.startsWith "Bearer " value) eqn:HB.
    + intros [= <-]. left. exact (startsWith_inv "Bearer " value HB).
    + destruct (JS.startsWith "bearer " value) eqn:Hb; [|discriminate].
      intros [= <-]. right. exact (startsWith_inv "bearer " value Hb).
  - intros [-> | ->]; reflexivity.
Qed.

(** One turn of the loop. The test of truthiness changes nothing: the empty
    value starts with neither prefix. *)
Lemma scan_headers_cons (hs : Headers) (n : string) (names : list string) :
  scan_headers hs (n :: names) =
    match Headers_get hs n with
    | Some v =>
        match strip_bearer v with
        | Some t => Some t
        | None => scan_headers hs names
        end
    | None => scan_headers hs names
    end.
Proof.
  simpl. destruct (Headers_get hs n) as [[|c v]|]; reflexivity.
Qed.

(** The scan stops at the first name of the list whose header has a value
    that one of the two branches accepts. *)
Lemma scan_headers_iff (hs : Headers) (names : list string) (t : string) :
  scan_headers hs names = Some t
  <-> exists before header after value,
        names = before ++ header :: after
        /\ Headers_get hs header = Some value
        /\ strip_bearer value = Some t
        /\ forall h v, In h before -> Headers_get hs h = Some v ->
                       strip_bearer v = None.
Proof.
  induction names as [|n names IH].
  - simpl. split; [discriminate|].
    intros [before [h [after [v [Hsplit _]]]]]. now destruct before.
  - rewrite scan_headers_cons. split.
    + intros Hscan.
      assert (Hhere :
        (exists v, Headers_get hs n = Some v /\ strip_bearer v = Some t)
        \/ ((forall v, Headers_get hs n = Some v -> strip_bearer v = None)
            /\ scan_headers hs names = Some t)).
      { destruct (Headers_get hs n) as [v|].
        - destruct (strip_bearer v) eqn:Hs.
          + left. exists v. split; congruence.
          + right. split; [intros v' [= <-]; exact Hs|exact Hscan].
        - right. split; [discriminate|exact Hscan]. }
      destruct Hhere as [[v [Hg Hs]]|[Hskip Hrest]].
      * exists [], n, names, v. repeat split; auto. intros h v' [].
      * apply IH in Hrest.
        destruct Hrest as [before [h [after [v [Hsplit [Hg [Hs Hnone]]]]]]].
        exists (n :: before), h, after, v.
        repeat split; [simpl; now rewrite Hsplit|assumption|assumption|].
        intros h0 v0 [<-|Hin] Hg0; [now apply Hskip|now apply (Hnone h0 v0)].
    + intros [before [h [after [v [Hsplit [Hg [Hs Hnone]]]]]]].
      destruct before as [|b before]; simpl in Hsplit.
      * injection Hsplit as <- _. now rewrite Hg, Hs.
      * injection Hsplit as <- ->.
        assert (Hrest : scan_headers hs (before ++ h :: after) = Some t).
        { apply IH. exists before, h, after, v. repeat split; auto.
          intros h0 v0 Hin Hg0.
          apply (Hnone h0 v0); [now right|assumption]. }
        destruct (Headers_get hs n) as [v0|] eqn:Hg0; [|exact Hrest].
        now rewrite (Hnone n v0 (or_introl eq_refl) Hg0).
Qed.

Lemma bearer_prefixed_strip (value : string) :
  bearer_prefixed value ->
  strip_bearer value = Some (JS.substring_from 7 value).
Proof.
  unfold strip_bearer. intros [H|H].
  - now rewrite H.
  - rewrite H. now destruct (JS.startsWith "Bearer " value).
Qed.

(** C8. When the call has no bearer token of its own and both the
    [authorization] header and the [x-auth-token] header carry a value with
    the prefix [Bearer ] or [bearer ], the token is the remainder of the
    value of [authorization]. *)
Theorem authorization_header_wins :
  forall (req : Request) (bearerToken : option string) (v1 v2 : string),
    JS.truthy bearerToken = false ->
    Headers_get (req_headers req) "authorization" = Some v1 ->
    bearer_prefixed v1 ->
    Headers_get (req_headers req) "x-auth-token" = Some v2 ->
    bearer_prefixed v2 ->
    extract_token req bearerToken = Some (JS.substring_from 7 v1).
Proof.
  intros req arg v1 v2 Harg Hget1 Hpre1 _ _.
  unfold extract_token, authHeaders. rewrite Harg. simpl negb. cbv iota.
  rewrite scan_headers_cons, Hget1.
  now rewrite (bearer_prefixed_strip v1 Hpre1).
Qed.

Lemma authorization_header_wins_witness :
  extract_token
    (Sample.request Sample.mcp_url
       [("X-Auth-Token", "Bearer second.token.value");
        ("Authorization", "bearer first.token.value")])
    None
  = Some "first.token.value".
Proof.
  apply (authorization_header_wins
           (Sample.request Sample.mcp_url
              [("X-Auth-Token", "Bearer second.token.value");
               ("Authorization", "bearer first.token.value")])
           None "bearer first.token.value" "Bearer second.token.value").
  - reflexivity.
  - reflexivity.
  - right. reflexivity.
  - reflexivity.
  - left. reflexivity.
Defined.

(** C9, as the code has it. The prefix is recognised in two spellings,
    [Bearer ] and [bearer ], and in no other: a value gives a token exactly
    when it is one of the two prefixes followed by that token, and the scan
    returns the token of the first header of the list, in order, whose
    value gives one. *)
Theorem bearer_prefix_two_spellings :
  (forall value t : string,
      strip_bearer value = Some t
      <-> value = ("Bearer " ++ t)%string \/ value = ("bearer " ++ t)%string)
  /\ (forall (hs : Headers) (t : string),
        scan_headers hs authHeaders = Some t
        <-> exists before header after value,
              authHeaders = before ++ header :: after
              /\ Headers_get hs header = Some value
              /\ strip_bearer value = Some t
              /\ forall h v, In h before -> Headers_get hs h = Some v ->
                             strip_bearer v = None).
Proof.
  split.
  - exact strip_bearer_iff.
  - intros hs t. apply scan_headers_iff.
Qed.

(** C9 fails as stated: the upper-case spelling of the prefix is not
    recognised, and a request whose only credential is so spelled has no
    token. *)
Lemma uppercase_bearer_not_recognised :
  strip_bearer "BEARER abc.def.ghi" = None
  /\ extract_token
       (Sample.request Sample.mcp_url
          [("authorization", "BEARER abc.def.ghi")]) None = None
  /\ strip_bearer "Bearer abc.def.ghi" = Some "abc.def.ghi".
Proof. repeat split. Qed.

(** ** The development block *)

Lemma env_is_iff (v : option string) (s : string) :
  env_is v s = true <-> v = Some s.
Proof.
  destruct v as [t|]; simpl.
  - rewrite String.eqb_eq. split; congruence.
  - split; discriminate.
Qed.

Lemma development_bypass_iff (env : Env) (bearerToken : option string) :
  development_bypass env bearerToken = DevBypass
  <-> JS.truthy bearerToken = false
      /\ NODE_ENV env = Some "development"
      /\ SKIP_AUTH env = Some "true".
Proof.
  unfold development_bypass. rewrite <- !env_is_iff.
  destruct (JS.truthy bearerToken); simpl.
  - split; [discriminate|]. intros [H _]. discriminate.
  - destruct (env_is (NODE_ENV env) "development"); simpl.
    + destruct (env_is (SKIP_AUTH env) "true").
      * split; auto.
      * split; [discriminate|]. intros [_ [_ H]]. discriminate.
    + split; [discriminate|]. intros [_ [H _]]. discriminate.
Qed.

(** ** The claims on [verifyGoogleToken] *)

Section Claims.

Variable env : Env.
Variable prov : Provider.
Variable pf : Platform.

(** The calls of a run, and the calls that reach the provider when the
    verifier of ID tokens was called on a token. *)
Lemma verify_call_inv (req : Request) (arg : option string)
    (tok : string) (aud : option string) :
  In (CallVerifyIdToken tok aud)
     (fst (run (verifyGoogleToken env prov pf req arg))) ->
  credential env req arg = Some tok
  /\ aud = GOOGLE_CLIENT_ID env
  /\ List.length (JS.split "." tok) = 3
  /\ exists base, origin_of pf (req_url req) = Some base.
Proof.
  intros Hin.
  destruct (verifyGoogleToken_cases env prov pf req arg)
    as [[_ [_ Hrun]]|[[_ [_ Hrun]]|[tok' [Hc Hrun]]]];
    rewrite Hrun in Hin; try contradiction.
  destruct (origin_of pf (req_url req)) as [base|] eqn:Hbase.
  - rewrite (verify_bearer_run env prov pf req tok' base Hbase) in Hin.
    destruct (Nat.eqb (List.length (JS.split "." tok')) 3) eqn:Hlen.
    + apply Nat.eqb_eq in Hlen.
      assert (Hev : CallVerifyIdToken tok aud
                    = CallVerifyIdToken tok' (GOOGLE_CLIENT_ID env)).
      { destruct (verifyIdToken prov tok' (GOOGLE_CLIENT_ID env));
          cbn [fst In userinfo_call] in Hin;
          destruct Hin as [H|H]; try (symmetry; exact H);
          try contradiction; destruct H as [H|H];
          try discriminate H; contradiction. }
      injection Hev as -> ->. repeat split; eauto.
    + destruct (JS.startsWith "ya29." tok');
        cbn [fst In userinfo_call] in Hin;
        repeat (destruct Hin as [Hin|Hin]; try discriminate Hin);
        contradiction.
  - rewrite (verify_bearer_bad_url env prov pf req tok' Hbase) in Hin.
    contradiction.
Qed.

(** C1, as the code has it. A context is returned only when a call of the
    run was answered by the provider with an identity, or when the
    development bypass is taken: no bearer token was passed or found in the
    headers, [NODE_ENV] is [development] and [SKIP_AUTH] is [true]; the
    bypass returns the fixed development context, without any call to the
    provider. *)
Theorem context_requires_verification_or_bypass :
  forall (req : Request) (bearerToken : option string) (authInfo : AuthInfo),
    snd (run (verifyGoogleToken env prov pf req bearerToken))
      = Returns (Some authInfo) ->
    existsb (call_verified prov)
            (fst (run (verifyGoogleToken env prov pf req bearerToken))) = true
    \/ (JS.truthy (extract_token req bearerToken) = false
        /\ NODE_ENV env = Some "development"
        /\ SKIP_AUTH env = Some "true"
        /\ authInfo = dev_bypass_info
        /\ fst (run (verifyGoogleToken env prov pf req bearerToken)) = []).
Proof.
  intros req arg ai Hres.
  destruct (verifyGoogleToken_cases env prov pf req arg)
    as [[Hdev [_ Hrun]]|[[_ [_ Hrun]]|[tok [Hc Hrun]]]];
    rewrite Hrun in Hres |- *.
  - right. apply development_bypass_iff in Hdev.
    destruct Hdev as [Ht [Hn Hs]]. cbn [snd fst] in *.
    injection Hres as <-. repeat split; assumption.
  - discriminate Hres.
  - left.
    destruct (origin_of pf (req_url req)) as [base|] eqn:Hbase.
    + rewrite (verify_bearer_run env prov pf req tok base Hbase) in Hres |- *.
      destruct (Nat.eqb (List.length (JS.split "." tok)) 3).
      * destruct (verifyIdToken prov tok (GOOGLE_CLIENT_ID env))
          as [msg|[p|]] eqn:Hid; run_simpl; rewrite Hid.
        -- destruct (profile_of (fetch prov userinfo_url ("Bearer " ++ tok)));
             [reflexivity|discriminate Hres].
        -- reflexivity.
        -- discriminate Hres.
      * destruct (JS.startsWith "ya29." tok); run_simpl.
        -- destruct (profile_of (fetch prov userinfo_url ("Bearer " ++ tok)));
             [reflexivity|discriminate Hres].
        -- discriminate Hres.
    + rewrite (verify_bearer_bad_url env prov pf req tok Hbase) in Hres.
      discriminate Hres.
Qed.

(** C2, as the code has it. A credential that splits on the dot into
    exactly three segments, empty or not, goes to the verifier of ID tokens
    first; any other credential that starts with [ya29.] goes to the
    userinfo lookup and nowhere else; every other credential is refused
    with an absent result and without a call. The request URL is one that
    parses, as that of a [Request] is. *)
Theorem credential_dispatch :
  forall (req : Request) (bearerToken : option string) (tok base : string),
    credential env req bearerToken = Some tok ->
    origin_of pf (req_url req) = Some base ->
    (List.length (JS.split "." tok) = 3 ->
       exists rest,
         fst (run (verifyGoogleToken env prov pf req bearerToken))
         = CallVerifyIdToken tok (GOOGLE_CLIENT_ID env) :: rest)
    /\ (List.length (JS.split "." tok) <> 3 ->
        JS.startsWith "ya29." tok = true ->
          fst (run (verifyGoogleToken env prov pf req bearerToken))
          = [CallFetch userinfo_url ("Bearer " ++ tok)])
    /\ (List.length (JS.split "." tok) <> 3 ->
        JS.startsWith "ya29." tok = false ->
          run (verifyGoogleToken env prov pf req bearerToken)
          = ([], Returns None)).
Proof.
  intros req arg tok base Hc Hbase.
  rewrite (verifyGoogleToken_credential env prov pf req arg tok Hc).
  rewrite (verify_bearer_run env prov pf req tok base Hbase).
  repeat split.
  - intros Hlen. rewrite Hlen. cbn [Nat.eqb].
    destruct (verifyIdToken prov tok (GOOGLE_CLIENT_ID env)); eexists;
      reflexivity.
  - intros Hlen Hpre. apply Nat.eqb_neq in Hlen. now rewrite Hlen, Hpre.
  - intros Hlen Hpre. apply Nat.eqb_neq in Hlen. now rewrite Hlen, Hpre.
Qed.

(** C3, as the code has it. For a request whose URL parses, the call
    returns: no exception reaches the caller. When in addition no call of
    the run was answered with an identity and the development bypass is
    not taken, it returns the absent result. *)
Theorem no_exception_when_url_parses :
  forall (req : Request) (bearerToken : option string) (base : string),
    origin_of pf (req_url req) = Some base ->
    exists result,
      snd (run (verifyGoogleToken env prov pf req bearerToken))
        = Returns result
      /\ (existsb (call_verified prov)
            (fst (run (verifyGoogleToken env prov pf req bearerToken)))
          = false ->
          development_bypass env (extract_token req bearerToken)
            <> DevBypass ->
          result = None).
Proof.
  intros req arg base Hbase.
  destruct (verifyGoogleToken_cases env prov pf req arg)
    as [[Hdev [_ Hrun]]|[[_ [_ Hrun]]|[tok [Hc Hrun]]]]; rewrite Hrun.
  - eexists. split; [reflexivity|]. intros _ Hn. contradiction.
  - eexists. split; reflexivity.
  - rewrite (verify_bearer_run env prov pf req tok base Hbase).
    destruct (Nat.eqb (List.length (JS.split "." tok)) 3).
    + destruct (verifyIdToken prov tok (GOOGLE_CLIENT_ID env))
        as [msg|[p|]] eqn:Hid; eexists; (split; [reflexivity|]);
        run_simpl; rewrite Hid; intros Hnone _; try discriminate Hnone;
        try reflexivity.
      destruct (profile_of (fetch prov userinfo_url ("Bearer " ++ tok)));
        [discriminate Hnone|reflexivity].
    + destruct (JS.startsWith "ya29." tok); eexists;
        (split; [reflexivity|]); run_simpl; intros Hnone _; try reflexivity.
      destruct (profile_of (fetch prov userinfo_url ("Bearer " ++ tok)));
        [discriminate Hnone|reflexivity].
Qed.

(** C4. When the verifier of ID tokens was called on a token and rejected
    it, the token has three segments, the run makes exactly one further
    call, the userinfo lookup with the same token as bearer credential, and
    it returns; the result is absent exactly when that lookup yields no
    profile. *)
Theorem fallback_attempted_exactly_once :
  forall (req : Request) (bearerToken : option string)
         (tok : string) (aud : option string) (message : string),
    In (CallVerifyIdToken tok aud)
       (fst (run (verifyGoogleToken env prov pf req bearerToken))) ->
    verifyIdToken prov tok aud = IdRejected message ->
    List.length (JS.split "." tok) = 3
    /\ fst (run (verifyGoogleToken env prov pf req bearerToken))
       = [CallVerifyIdToken tok aud;
          CallFetch userinfo_url ("Bearer " ++ tok)]
    /\ List.length
         (filter is_fetch
            (fst (run (verifyGoogleToken env prov pf req bearerToken)))) = 1
    /\ exists result,
         snd (run (verifyGoogleToken env prov pf req bearerToken))
           = Returns result
         /\ (result = None
             <-> profile_of (fetch prov userinfo_url ("Bearer " ++ tok))
                 = None).
Proof.
  intros req arg tok aud msg Hin Hrej.
  destruct (verify_call_inv req arg tok aud Hin)
    as [Hc [-> [Hlen [base Hbase]]]].
  rewrite (verifyGoogleToken_credential env prov pf req arg tok Hc).
  rewrite (verify_bearer_run env prov pf req tok base Hbase).
  rewrite Hlen, Hrej. cbn [Nat.eqb]. run_simpl.
  repeat split.
  eexists. split; [reflexivity|].
  destruct (profile_of (fetch prov userinfo_url ("Bearer " ++ tok)));
    run_simpl; split; congruence.
Qed.

End Claims.

(** ** Runs on the sample data *)

(** The two end-to-end scenarios of the specification with an access
    token, and the one without a credential. *)
Example access_token_accepted :
  run (verifyGoogleToken Sample.production Sample.profile_only
         Reference.platform
         (Sample.request Sample.mcp_url
            [("authorization", "Bearer ya29.sampletoken")]) None)
  = ([CallFetch userinfo_url "Bearer ya29.sampletoken"],
     Returns (Some {| token := "ya29.sampletoken";
                      scopes := mcpScopes;
                      clientId := str "123";
                      expiresAt := None;
                      extra := [("email", str "a@b.com");
                                ("name", None);
                                ("picture", None);
                                ("verified", None);
                                ("locale", None);
                                ("provider", str "google");
                                ("tokenType", str "access_token");
                                ("mcpCompliant", str "2025-06-18");
                                ("audience", str "https://api.example.com")]
                   |})).
Proof. reflexivity. Qed.

Example access_token_rejected :
  run (verifyGoogleToken Sample.production Sample.rejecting
         Reference.platform
         (Sample.request Sample.mcp_url []) (Some "ya29.badtoken"))
  = ([CallFetch userinfo_url "Bearer ya29.badtoken"], Returns None).
Proof. reflexivity. Qed.

Example no_credential :
  run (verifyGoogleToken Sample.production Sample.rejecting
         Reference.platform (Sample.request Sample.mcp_url []) None)
  = ([], Returns None).
Proof. reflexivity. Qed.

(** A ticket without payload ends the call with the absent result and
    without a userinfo lookup: the verifier did not reject the token. *)
Example empty_payload_no_fallback :
  run (verifyGoogleToken Sample.production
         {| verifyIdToken := fun _ _ => IdTicket None;
            fetch := fetch Sample.profile_only |}
         Reference.platform
         (Sample.request Sample.mcp_url []) (Some "aaa.bbb.ccc"))
  = ([CallVerifyIdToken "aaa.bbb.ccc" (GOOGLE_CLIENT_ID Sample.production)],
     Returns None).
Proof. reflexivity. Qed.

Lemma context_requires_verification_or_bypass_witness :
  snd (run (verifyGoogleToken Sample.production Sample.profile_only
              Reference.platform
              (Sample.request Sample.mcp_url []) (Some "ya29.sampletoken")))
  = Returns (Some (profile_context "ya29.sampletoken"
                     "https://api.example.com" "access_token" Sample.profile))
  /\ (existsb (call_verified Sample.profile_only)
        (fst (run (verifyGoogleToken Sample.production Sample.profile_only
                     Reference.platform
                     (Sample.request Sample.mcp_url [])
                     (Some "ya29.sampletoken")))) = true
      \/ (JS.truthy (extract_token (Sample.request Sample.mcp_url [])
                       (Some "ya29.sampletoken")) = false
          /\ NODE_ENV Sample.production = Some "development"
          /\ SKIP_AUTH Sample.production = Some "true"
          /\ profile_context "ya29.sampletoken" "https://api.example.com"
               "access_token" Sample.profile = dev_bypass_info
          /\ fst (run (verifyGoogleToken Sample.production
                         Sample.profile_only Reference.platform
                         (Sample.request Sample.mcp_url [])
                         (Some "ya29.sampletoken"))) = [])).
Proof.
  split; [reflexivity|].
  apply (context_requires_verification_or_bypass
           Sample.production Sample.profile_only Reference.platform).
  reflexivity.
Defined.

(** C1 fails as stated: in development with [SKIP_AUTH=true], a request
    without any credential obtains a context although the provider, which
    rejects everything, was never called. *)
Lemma dev_bypass_context_without_verification :
  run (verifyGoogleToken Sample.development_skip_auth Sample.rejecting
         Reference.platform (Sample.request Sample.mcp_url []) None)
  = ([], Returns (Some dev_bypass_info))
  /\ existsb (call_verified Sample.rejecting)
       (fst (run (verifyGoogleToken Sample.development_skip_auth
                    Sample.rejecting Reference.platform
                    (Sample.request Sample.mcp_url []) None))) = false.
Proof. split; reflexivity. Qed.

Lemma credential_dispatch_witness :
  credential Sample.production
    (Sample.request Sample.mcp_url [("authorization", "Bearer a..c")]) None
  = Some "a..c"
  /\ origin_of Reference.platform Sample.mcp_url
     = Some "https://api.example.com"
  /\ exists rest,
       fst (run (verifyGoogleToken Sample.production Sample.rejecting
                   Reference.platform
                   (Sample.request Sample.mcp_url
                      [("authorization", "Bearer a..c")]) None))
       = CallVerifyIdToken "a..c" (GOOGLE_CLIENT_ID Sample.production)
         :: rest.
Proof.
  split; [reflexivity|]. split; [reflexivity|].
  apply (credential_dispatch Sample.production Sample.rejecting
           Reference.platform
           (Sample.request Sample.mcp_url [("authorization", "Bearer a..c")])
           None "a..c" "https://api.example.com");
    reflexivity.
Defined.

(** C2 fails as stated: a credential of three segments of which one is
    empty is not refused without a call, and one that also starts with
    [ya29.] does not go to the userinfo lookup alone; both are first sent
    to the verifier of ID tokens. *)
Lemma empty_segment_credential_is_verified_as_id_token :
  forallb (fun seg => negb (String.eqb seg EmptyString)) (JS.split "." "a..c") = false
  /\ JS.startsWith "ya29." "a..c" = false
  /\ fst (run (verifyGoogleToken Sample.production Sample.rejecting
                 Reference.platform
                 (Sample.request Sample.mcp_url []) (Some "a..c")))
     = [CallVerifyIdToken "a..c" (GOOGLE_CLIENT_ID Sample.production);
        CallFetch userinfo_url "Bearer a..c"]
  /\ forallb (fun seg => negb (String.eqb seg EmptyString)) (JS.split "." "ya29..x")
     = false
  /\ JS.startsWith "ya29." "ya29..x" = true
  /\ fst (run (verifyGoogleToken Sample.production Sample.rejecting
                 Reference.platform
                 (Sample.request Sample.mcp_url []) (Some "ya29..x")))
     = [CallVerifyIdToken "ya29..x" (GOOGLE_CLIENT_ID Sample.production);
        CallFetch userinfo_url "Bearer ya29..x"].
Proof. repeat split. Qed.

Lemma no_exception_when_url_parses_witness :
  origin_of Reference.platform Sample.mcp_url = Some "https://api.example.com"
  /\ exists result,
       snd (run (verifyGoogleToken Sample.production Sample.rejecting
                   Reference.platform
                   (Sample.request Sample.mcp_url []) (Some "aaa.bbb.ccc")))
         = Returns result
       /\ (existsb (call_verified Sample.rejecting)
             (fst (run (verifyGoogleToken Sample.production Sample.rejecting
                          Reference.platform
                          (Sample.request Sample.mcp_url [])
                          (Some "aaa.bbb.ccc")))) = false ->
           development_bypass Sample.production
             (extract_token (Sample.request Sample.mcp_url [])
                (Some "aaa.bbb.ccc")) <> DevBypass ->
           result = None).
Proof.
  split; [reflexivity|].
  apply (no_exception_when_url_parses Sample.production Sample.rejecting
           Reference.platform (Sample.request Sample.mcp_url [])
           (Some "aaa.bbb.ccc") "https://api.example.com").
  reflexivity.
Defined.

(** C3 fails as stated: with a request URL that does not parse and a
    credential, the [TypeError] of [new URL] reaches the caller. *)
Lemma unparsable_url_throws :
  origin_of Reference.platform "not a url" = None
  /\ run (verifyGoogleToken Sample.production Sample.rejecting
            Reference.platform
            (Sample.request "not a url" []) (Some "ya29.sampletoken"))
     = ([], Throws TypeError).
Proof. split; reflexivity. Qed.

Lemma fallback_attempted_exactly_once_witness :
  In (CallVerifyIdToken "aaa.bbb.ccc" (GOOGLE_CLIENT_ID Sample.production))
     (fst (run (verifyGoogleToken Sample.production Sample.profile_only
                  Reference.platform
                  (Sample.request Sample.mcp_url []) (Some "aaa.bbb.ccc"))))
  /\ verifyIdToken Sample.profile_only "aaa.bbb.ccc"
       (GOOGLE_CLIENT_ID Sample.production)
     = IdRejected "Wrong number of segments"
  /\ List.length
       (filter is_fetch
          (fst (run (verifyGoogleToken Sample.production Sample.profile_only
                       Reference.platform
                       (Sample.request Sample.mcp_url [])
                       (Some "aaa.bbb.ccc"))))) = 1.
Proof.
  split; [left; reflexivity|]. split; [reflexivity|].
  apply (fallback_attempted_exactly_once Sample.production
           Sample.profile_only Reference.platform
           (Sample.request Sample.mcp_url []) (Some "aaa.bbb.ccc")
           "aaa.bbb.ccc" (GOOGLE_CLIENT_ID Sample.production)
           "Wrong number of segments").
  - left. reflexivity.
  - reflexivity.
Defined.

(** ** [validateResourceParameter] *)

Lemma decimal_of_N_inj (a b : N) : decimal_of_N a = decimal_of_N b -> a = b.
Proof.
  unfold decimal_of_N. intros H.
  assert (Hnn : forall n, N.to_uint n <> Decimal.Nil).
  { intros [|p]; [discriminate|]. apply DecimalPos.Unsigned.to_uint_nonnil. }
  apply DecimalN.Unsigned.to_uint_inj.
  assert (Hs : Some (N.to_uint a) = Some (N.to_uint b)).
  { rewrite <- (DecimalString.NilZero.usu _ (Hnn a)).
    rewrite <- (DecimalString.NilZero.usu _ (Hnn b)).
    now rewrite H. }
  now injection Hs.
Qed.

Lemma port_suffix_inj (p q : option N) : port_suffix p = port_suffix q -> p = q.
Proof.
  destruct p as [a|], q as [b|]; simpl; intros H;
    try discriminate; [|reflexivity].
  injection H as H. f_equal. now apply decimal_of_N_inj.
Qed.

Lemma host_port_inj (h1 h2 : string) (p q : option N) :
  colon_free h1 = true -> colon_free h2 = true ->
  (h1 ++ port_suffix p)%string = (h2 ++ port_suffix q)%string ->
  h1 = h2 /\ p = q.
Proof.
  revert h2. induction h1 as [|c h1 IH]; intros [|d h2] Hc1 Hc2 H; simpl in *.
  - split; [reflexivity|now apply port_suffix_inj].
  - destruct p; simpl in H; [|discriminate]. injection H as <- _.
    discriminate Hc2.
  - destruct q; simpl in H; [|discriminate]. injection H as -> _.
    discriminate Hc1.
  - injection H as -> H.
    apply andb_true_iff in Hc1, Hc2.
    destruct (IH h2 (proj2 Hc1) (proj2 Hc2) H) as [-> ->]. now split.
Qed.

Lemma tuple_origin_scheme_cases (s : string) :
  tuple_origin_scheme s = true ->
  s = "ftp" \/ s = "http" \/ s = "https" \/ s = "ws" \/ s = "wss".
Proof.
  unfold tuple_origin_scheme. simpl.
  rewrite !orb_true_iff, !String.eqb_eq. intuition discriminate.
Qed.

(** The serialisation of a tuple origin tells the scheme, the host and the
    port of a plain URL. *)
Lemma serialize_tuple_origin_inj (u1 u2 : URL) :
  plain_tuple_url u1 -> plain_tuple_url u2 ->
  serialize_tuple_origin u1 = serialize_tuple_origin u2 ->
  same_scheme_host_port u1 u2.
Proof.
  intros [Hs1 [h1 [Hh1 Hc1]]] [Hs2 [h2 [Hh2 Hc2]]].
  unfold serialize_tuple_origin, same_scheme_host_port.
  rewrite Hh1, Hh2.
  fold (port_suffix (url_port u1)). fold (port_suffix (url_port u2)).
  apply tuple_origin_scheme_cases in Hs1, Hs2.
  intros H.
  assert (Hparts : url_scheme u1 = url_scheme u2
                   /\ (h1 ++ port_suffix (url_port u1))%string
                      = (h2 ++ port_suffix (url_port u2))%string).
  { destruct Hs1 as [E1|[E1|[E1|[E1|E1]]]];
      destruct Hs2 as [E2|[E2|[E2|[E2|E2]]]];
      rewrite E1, E2 in H |- *; simpl in H;
      try discriminate H; injection H as H; split; auto. }
  destruct Hparts as [Hs Hhp].
  destruct (host_port_inj h1 h2 _ _ Hc1 Hc2 Hhp) as [-> Hp].
  repeat split; assumption.
Qed.

Lemma tuple_origin_not_null (u : URL) :
  tuple_origin_scheme (url_scheme u) = true ->
  serialize_tuple_origin u <> "null".
Proof.
  intros Hs. apply tuple_origin_scheme_cases in Hs.
  unfold serialize_tuple_origin.
  destruct Hs as [E|[E|[E|[E|E]]]]; rewrite E; discriminate.
Qed.

Section Resource.

Variable pf : Platform.

Lemma plain_tuple_origin (u : URL) :
  plain_tuple_url u -> URL_origin pf u = serialize_tuple_origin u.
Proof.
  intros [Hs _]. unfold URL_origin. rewrite Hs.
  apply tuple_origin_scheme_cases in Hs.
  destruct Hs as [E|[E|[E|[E|E]]]]; now rewrite E.
Qed.

(** C7, as the code has it. The function compares the serialised origins:
    it returns true exactly when both arguments parse and the [origin]
    strings of the two URLs are equal, and false when either argument does
    not parse. For two URLs with a tuple origin and a host without colon,
    that is the identity of scheme, host and port. Two URLs whose origin is
    opaque, serialised as [null], always compare equal. *)
Theorem validateResourceParameter_compares_origin_strings :
  forall resource serverBaseUrl : string,
    (validateResourceParameter pf resource serverBaseUrl = true
     <-> exists u1 u2,
           URL_parse pf resource = Some u1
           /\ URL_parse pf serverBaseUrl = Some u2
           /\ URL_origin pf u1 = URL_origin pf u2)
    /\ (URL_parse pf resource = None \/ URL_parse pf serverBaseUrl = None ->
        validateResourceParameter pf resource serverBaseUrl = false)
    /\ (forall u1 u2,
          URL_parse pf resource = Some u1 ->
          URL_parse pf serverBaseUrl = Some u2 ->
          plain_tuple_url u1 -> plain_tuple_url u2 ->
          (validateResourceParameter pf resource serverBaseUrl = true
           <-> same_scheme_host_port u1 u2))
    /\ (forall u1 u2,
          URL_parse pf resource = Some u1 ->
          URL_parse pf serverBaseUrl = Some u2 ->
          URL_origin pf u1 = "null" -> URL_origin pf u2 = "null" ->
          validateResourceParameter pf resource serverBaseUrl = true).
Proof.
  intros r s. unfold validateResourceParameter, origin_of.
  split; [|split; [|split]].
  - split.
    + destruct (URL_parse pf r) as [u1|]; [|discriminate].
      destruct (URL_parse pf s) as [u2|]; [|discriminate].
      intros H. apply String.eqb_eq in H. now exists u1, u2.
    + intros [u1 [u2 [-> [-> H]]]]. now apply String.eqb_eq.
  - intros [-> | ->]; [reflexivity|].
    now destruct (URL_parse pf r).
  - intros u1 u2 -> -> Hp1 Hp2.
    rewrite String.eqb_eq, !plain_tuple_origin by assumption.
    split.
    + now apply serialize_tuple_origin_inj.
    + intros [Hs [Hh Hp]]. unfold serialize_tuple_origin.
      now rewrite Hs, Hh, Hp.
  - intros u1 u2 -> -> -> ->. reflexivity.
Qed.

End Resource.

(** The examples of the specification. *)
Example resource_same_origin :
  validateResourceParameter Reference.platform
    "https://api.example.com/x" "https://api.example.com" = true.
Proof. reflexivity. Qed.

Example resource_other_origin :
  validateResourceParameter Reference.platform
    "https://evil.com" "https://api.example.com" = false.
Proof. reflexivity. Qed.

Example resource_malformed :
  validateResourceParameter Reference.platform
    "api.example.com" "https://api.example.com" = false
  /\ validateResourceParameter Reference.platform
       "https://api.example.com" EmptyString = false.
Proof. split; reflexivity. Qed.

(** C7 fails as stated: a mail address and a data URL have neither scheme
    nor host in common, and the function returns true on them, both origins
    being opaque. *)
Lemma opaque_origins_compare_equal :
  validateResourceParameter Reference.platform
    "mailto:user@example.com" "data:text/plain,hi" = true
  /\ ~ (exists u1 u2,
          URL_parse Reference.platform "mailto:user@example.com" = Some u1
          /\ URL_parse Reference.platform "data:text/plain,hi" = Some u2
          /\ same_scheme_host_port u1 u2).
Proof.
  split; [reflexivity|].
  intros [u1 [u2 [H1 [H2 [Hs _]]]]].
  vm_compute in H1, H2. injection H1 as <-. injection H2 as <-.
  discriminate Hs.
Qed.

Lemma validateResourceParameter_compares_origin_strings_witness :
  URL_parse Reference.platform "https://api.example.com/x"
  = Some (mkURL "https" (Some "api.example.com") None None)
  /\ URL_parse Reference.platform "HTTPS://API.example.com:443"
     = Some (mkURL "https" (Some "api.example.com") None None)
  /\ validateResourceParameter Reference.platform
       "https://api.example.com/x" "HTTPS://API.example.com:443" = true.
Proof.
  split; [reflexivity|]. split; [reflexivity|].
  apply (validateResourceParameter_compares_origin_strings
           Reference.platform
           "https://api.example.com/x" "HTTPS://API.example.com:443").
  exists (mkURL "https" (Some "api.example.com") None None),
         (mkURL "https" (Some "api.example.com") None None).
  repeat split.
Defined.

(** * Further properties of the code *)

(** ** What [verifyGoogleToken] reads *)

Lemma verify_bearer_reads (env env' : Env) (prov : Provider) (pf : Platform)
    (req req' : Request) (tok : string) :
  GOOGLE_CLIENT_ID env = GOOGLE_CLIENT_ID env' ->
  req_url req = req_url req' ->
  verify_bearer env prov pf req tok = verify_bearer env' prov pf req' tok.
Proof.
  intros Hid Hurl. unfold verify_bearer. now rewrite Hid, Hurl.
Qed.

Lemma development_bypass_off (env : Env) (bearerToken : option string) :
  NODE_ENV env <> Some "development" ->
  development_bypass env bearerToken = DevToken bearerToken.
Proof.
  intros Hprod. unfold development_bypass.
  destruct (env_is (NODE_ENV env) "development") eqn:E.
  - apply env_is_iff in E. contradiction.
  - now rewrite andb_false_r.
Qed.

Lemma development_bypass_truthy (env : Env) (bearerToken : option string) :
  JS.truthy bearerToken = true ->
  development_bypass env bearerToken = DevToken bearerToken.
Proof. intros Ht. unfold development_bypass. now rewrite Ht. Qed.

(** X1. Outside development the development settings are never read: two
    environments that are not in development and have the same client
    identifier give the same run, whatever [DEV_AUTH_TOKEN], [SKIP_AUTH]
    and the debug token hold. *)
Theorem production_ignores_development_settings :
  forall (env env' : Env) (prov : Provider) (pf : Platform)
         (req : Request) (bearerToken : option string),
    NODE_ENV env <> Some "development" ->
    NODE_ENV env' <> Some "development" ->
    GOOGLE_CLIENT_ID env = GOOGLE_CLIENT_ID env' ->
    run (verifyGoogleToken env prov pf req bearerToken)
    = run (verifyGoogleToken env' prov pf req bearerToken).
Proof.
  intros env env' prov pf req arg Hp Hp' Hid.
  unfold verifyGoogleToken.
  rewrite (development_bypass_off env _ Hp), (development_bypass_off env' _ Hp').
  destruct (extract_token req arg) as [[|c t]|]; try reflexivity.
  now rewrite (verify_bearer_reads env env' prov pf req req _ Hid eq_refl).
Qed.

Lemma production_ignores_development_settings_witness :
  run (verifyGoogleToken Sample.production Sample.profile_only
         Reference.platform (Sample.request Sample.mcp_url []) None)
  = run (verifyGoogleToken
           {| NODE_ENV := Some "production";
              DEV_AUTH_TOKEN := Some "ya29.devtoken";
              SKIP_AUTH := Some "true";
              GOOGLE_CLIENT_ID := GOOGLE_CLIENT_ID Sample.production;
              mcpDebugToken := Some "ya29.debugtoken" |}
           Sample.profile_only Reference.platform
           (Sample.request Sample.mcp_url []) None).
Proof.
  apply production_ignores_development_settings.
  - discriminate.
  - discriminate.
  - reflexivity.
Defined.

(** X2. A request that carries a token, as argument or in a header, is
    never answered by the development bypass nor verified with a
    development token: its run depends on the environment through the
    client identifier alone. *)
Theorem token_bearing_request_ignores_development_settings :
  forall (env env' : Env) (prov : Provider) (pf : Platform)
         (req : Request) (bearerToken : option string),
    JS.truthy (extract_token req bearerToken) = true ->
    GOOGLE_CLIENT_ID env = GOOGLE_CLIENT_ID env' ->
    run (verifyGoogleToken env prov pf req bearerToken)
    = run (verifyGoogleToken env' prov pf req bearerToken)
    /\ credential env req bearerToken = extract_token req bearerToken.
Proof.
  intros env env' prov pf req arg Ht Hid.
  unfold verifyGoogleToken, credential.
  rewrite (development_bypass_truthy env _ Ht).
  rewrite (development_bypass_truthy env' _ Ht).
  destruct (extract_token req arg) as [[|c t]|]; try discriminate Ht.
  split; [|reflexivity].
  now rewrite (verify_bearer_reads env env' prov pf req req _ Hid eq_refl).
Qed.

Lemma token_bearing_request_ignores_development_settings_witness :
  run (verifyGoogleToken Sample.development_skip_auth Sample.rejecting
         Reference.platform
         (Sample.request Sample.mcp_url
            [("Authorization", "Bearer ya29.sampletoken")]) None)
  = run (verifyGoogleToken Sample.production Sample.rejecting
           Reference.platform
           (Sample.request Sample.mcp_url
              [("Authorization", "Bearer ya29.sampletoken")]) None)
  /\ credential Sample.development_skip_auth
       (Sample.request Sample.mcp_url
          [("Authorization", "Bearer ya29.sampletoken")]) None
     = Some "ya29.sampletoken".
Proof.
  apply (token_bearing_request_ignores_development_settings
           Sample.development_skip_auth Sample.production Sample.rejecting
           Reference.platform
           (Sample.request Sample.mcp_url
              [("Authorization", "Bearer ya29.sampletoken")]) None);
    reflexivity.
Defined.

(** X3. With a non-empty [bearerToken] argument the headers of the request
    are never read: two requests with the same URL give the same run. *)
Theorem explicit_token_ignores_headers :
  forall (env : Env) (prov : Provider) (pf : Platform)
         (req req' : Request) (c : ascii) (t : string),
    req_url req = req_url req' ->
    run (verifyGoogleToken env prov pf req (Some (String c t)))
    = run (verifyGoogleToken env prov pf req' (Some (String c t)))
    /\ credential env req (Some (String c t)) = Some (String c t).
Proof.
  intros env prov pf req req' c t Hurl.
  unfold verifyGoogleToken, credential, extract_token. simpl JS.truthy.
  cbn [negb]. rewrite !development_bypass_truthy by reflexivity.
  split; [|reflexivity].
  now rewrite (verify_bearer_reads env env prov pf req req' _ eq_refl Hurl).
Qed.

Lemma explicit_token_ignores_headers_witness :
  run (verifyGoogleToken Sample.production Sample.profile_only
         Reference.platform
         (Sample.request Sample.mcp_url
            [("authorization", "Bearer aaa.bbb.ccc")])
         (Some "ya29.sampletoken"))
  = run (verifyGoogleToken Sample.production Sample.profile_only
           Reference.platform (Sample.request Sample.mcp_url [])
           (Some "ya29.sampletoken"))
  /\ credential Sample.production
       (Sample.request Sample.mcp_url
          [("authorization", "Bearer aaa.bbb.ccc")])
       (Some "ya29.sampletoken")
     = Some "ya29.sampletoken".
Proof.
  apply (explicit_token_ignores_headers Sample.production Sample.profile_only
           Reference.platform).
  reflexivity.
Defined.

(** ** The calls of a run *)

Section Calls.

Variable env : Env.
Variable prov : Provider.
Variable pf : Platform.

(** X4. Without a credential no call is made to the provider, and the
    result is absent or the development context. *)
Theorem no_credential_no_call :
  forall (req : Request) (bearerToken : option string),
    credential env req bearerToken = None ->
    fst (run (verifyGoogleToken env prov pf req bearerToken)) = []
    /\ (snd (run (verifyGoogleToken env prov pf req bearerToken))
        = Returns None
        \/ snd (run (verifyGoogleToken env prov pf req bearerToken))
           = Returns (Some dev_bypass_info)).
Proof.
  intros req arg Hc.
  destruct (verifyGoogleToken_cases env prov pf req arg)
    as [[_ [_ Hrun]]|[[_ [_ Hrun]]|[tok [Hc' _]]]].
  - rewrite Hrun. split; [reflexivity|now right].
  - rewrite Hrun. split; [reflexivity|now left].
  - congruence.
Qed.

(** X5. A run makes at most two calls, and each of them carries the
    credential of the request to the provider: to the verifier of ID
    tokens with the configured client identifier as audience, or to the
    userinfo endpoint as bearer credential. The token is sent nowhere
    else. *)
Theorem calls_carry_the_credential :
  forall (req : Request) (bearerToken : option string),
    List.length (fst (run (verifyGoogleToken env prov pf req bearerToken)))
      <= 2
    /\ forall e,
         In e (fst (run (verifyGoogleToken env prov pf req bearerToken))) ->
         exists tok,
           credential env req bearerToken = Some tok
           /\ (e = CallVerifyIdToken tok (GOOGLE_CLIENT_ID env)
               \/ e = CallFetch userinfo_url ("Bearer " ++ tok)).
Proof.
  intros req arg.
  destruct (verifyGoogleToken_cases env prov pf req arg)
    as [[_ [_ Hrun]]|[[_ [_ Hrun]]|[tok [Hc Hrun]]]]; rewrite Hrun.
  - split; [simpl; lia|intros e []].
  - split; [simpl; lia|intros e []].
  - destruct (origin_of pf (req_url req)) as [base|] eqn:Hbase.
    + rewrite (verify_bearer_run env prov pf req tok base Hbase).
      destruct (Nat.eqb (List.length (JS.split "." tok)) 3).
      * destruct (verifyIdToken prov tok (GOOGLE_CLIENT_ID env));
          cbn [fst List.length In userinfo_call];
          (split; [lia|]); intros e He; exists tok; (split; [exact Hc|]);
          repeat (destruct He as [He|He]; [subst e; auto|]);
          contradiction.
      * destruct (JS.startsWith "ya29." tok);
          cbn [fst List.length In userinfo_call];
          (split; [lia|]); intros e He; try contradiction.
        exists tok. split; [exact Hc|].
        destruct He as [He|[]]. subst e. now right.
    + rewrite (verify_bearer_bad_url env prov pf req tok Hbase).
      split; [simpl; lia|intros e []].
Qed.

(** X6. A credential is sent to the verifier of ID tokens exactly when it
    holds two dots, wherever they stand. *)
Theorem id_token_path_iff_two_dots :
  forall (req : Request) (bearerToken : option string) (tok base : string),
    credential env req bearerToken = Some tok ->
    origin_of pf (req_url req) = Some base ->
    (In (CallVerifyIdToken tok (GOOGLE_CLIENT_ID env))
        (fst (run (verifyGoogleToken env prov pf req bearerToken)))
     <-> count_char "." tok = 2).
Proof.
  intros req arg tok base Hc Hbase.
  rewrite (verifyGoogleToken_credential env prov pf req arg tok Hc).
  rewrite (verify_bearer_run env prov pf req tok base Hbase).
  rewrite split_length.
  destruct (count_char "." tok) as [|[|[|n]]] eqn:Hn; cbn [Nat.eqb].
  1, 2, 4:
    split; [|discriminate];
    destruct (JS.startsWith "ya29." tok); cbn [fst In userinfo_call];
    intros H; repeat (destruct H as [H|H]; try discriminate H);
    contradiction.
  split; [reflexivity|]. intros _.
  destruct (verifyIdToken prov tok (GOOGLE_CLIENT_ID env)); now left.
Qed.

(** X7. The fields of a returned context that do not come from the
    provider: the scopes are the five fixed ones; unless it is the
    development context, the token is the credential of the request, the
    audience is the origin of the request URL and the provider is
    [google]. *)
Theorem returned_context_fixed_fields :
  forall (req : Request) (bearerToken : option string) (authInfo : AuthInfo),
    snd (run (verifyGoogleToken env prov pf req bearerToken))
      = Returns (Some authInfo) ->
    scopes authInfo = mcpScopes
    /\ (authInfo = dev_bypass_info
        \/ exists base,
             credential env req bearerToken = Some (token authInfo)
             /\ origin_of pf (req_url req) = Some base
             /\ extra_get (extra authInfo) "audience" = str base
             /\ extra_get (extra authInfo) "provider" = str "google").
Proof.
  intros req arg ai Hres.
  destruct (verifyGoogleToken_cases env prov pf req arg)
    as [[_ [_ Hrun]]|[[_ [_ Hrun]]|[tok [Hc Hrun]]]];
    rewrite Hrun in Hres; cbn [snd] in Hres.
  - injection Hres as <-. split; [reflexivity|now left].
  - discriminate Hres.
  - destruct (origin_of pf (req_url req)) as [base|] eqn:Hbase.
    + rewrite (verify_bearer_run env prov pf req tok base Hbase) in Hres.
      assert (Hai : (exists p, ai = id_token_info tok base p)
                    \/ exists tt u, ai = profile_context tok base tt u).
      { destruct (Nat.eqb (List.length (JS.split "." tok)) 3).
        - destruct (verifyIdToken prov tok (GOOGLE_CLIENT_ID env))
            as [msg|[p|]]; cbn [snd option_map] in Hres.
          + destruct (profile_of _) as [u|]; [|discriminate Hres].
            injection Hres as <-. right. eauto.
          + injection Hres as <-. left. eauto.
          + discriminate Hres.
        - destruct (JS.startsWith "ya29." tok); cbn [snd] in Hres;
            [|discriminate Hres].
          destruct (profile_of _) as [u|]; [|discriminate Hres].
          injection Hres as <-. right. eauto. }
      destruct Hai as [[p ->]|[tt [u ->]]];
        (split; [reflexivity|right]); exists base; repeat split; exact Hc.
    + rewrite (verify_bearer_bad_url env prov pf req tok Hbase) in Hres.
      discriminate Hres.
Qed.

End Calls.

Lemma no_credential_no_call_witness :
  credential Sample.production
    (Sample.request Sample.mcp_url [("authorization", "Basic dXNlcjpwdw==")])
    None = None
  /\ fst (run (verifyGoogleToken Sample.production Sample.profile_only
                 Reference.platform
                 (Sample.request Sample.mcp_url
                    [("authorization", "Basic dXNlcjpwdw==")]) None)) = []
  /\ (snd (run (verifyGoogleToken Sample.production Sample.profile_only
                  Reference.platform
                  (Sample.request Sample.mcp_url
                     [("authorization", "Basic dXNlcjpwdw==")]) None))
      = Returns None
      \/ snd (run (verifyGoogleToken Sample.production Sample.profile_only
                     Reference.platform
                     (Sample.request Sample.mcp_url
                        [("authorization", "Basic dXNlcjpwdw==")]) None))
         = Returns (Some dev_bypass_info)).
Proof.
  split; [reflexivity|].
  apply (no_credential_no_call Sample.production Sample.profile_only
           Reference.platform).
  reflexivity.
Defined.

Lemma id_token_path_iff_two_dots_witness :
  credential Sample.production (Sample.request Sample.mcp_url [])
    (Some "ya29.a.b") = Some "ya29.a.b"
  /\ origin_of Reference.platform Sample.mcp_url
     = Some "https://api.example.com"
  /\ (In (CallVerifyIdToken "ya29.a.b" (GOOGLE_CLIENT_ID Sample.production))
         (fst (run (verifyGoogleToken Sample.production Sample.rejecting
                      Reference.platform (Sample.request Sample.mcp_url [])
                      (Some "ya29.a.b"))))
      <-> count_char "." "ya29.a.b" = 2).
Proof.
  split; [reflexivity|]. split; [reflexivity|].
  apply (id_token_path_iff_two_dots Sample.production Sample.rejecting
           Reference.platform (Sample.request Sample.mcp_url [])
           (Some "ya29.a.b") "ya29.a.b" "https://api.example.com");
    reflexivity.
Defined.

Lemma returned_context_fixed_fields_witness :
  snd (run (verifyGoogleToken Sample.production Sample.profile_only
              Reference.platform (Sample.request Sample.mcp_url [])
              (Some "aaa.bbb.ccc")))
  = Returns (Some (profile_context "aaa.bbb.ccc" "https://api.example.com"
                     "access_token_fallback" Sample.profile))
  /\ scopes (profile_context "aaa.bbb.ccc" "https://api.example.com"
               "access_token_fallback" Sample.profile) = mcpScopes.
Proof.
  split; [reflexivity|].
  apply (returned_context_fixed_fields Sample.production Sample.profile_only
           Reference.platform (Sample.request Sample.mcp_url [])
           (Some "aaa.bbb.ccc")).
  reflexivity.
Defined.

Section Provenance.

Variable env : Env.
Variable prov : Provider.
Variable pf : Platform.

(** X8. A returned context tells the strategy that produced it. Tagged
    [id_token], it follows a single call, which the verifier of ID tokens
    answered with a payload, and holds the subject and the expiry of that
    payload. Tagged [access_token], it follows a single userinfo lookup;
    tagged [access_token_fallback], a rejection by the verifier and then
    the lookup; both hold the [id] of the profile and no expiry. Without
    tag it is the development context, and no call was made. *)
Theorem context_tells_its_strategy :
  forall (req : Request) (bearerToken : option string) (authInfo : AuthInfo),
    snd (run (verifyGoogleToken env prov pf req bearerToken))
      = Returns (Some authInfo) ->
    (extra_get (extra authInfo) "tokenType" = None
     /\ authInfo = dev_bypass_info
     /\ fst (run (verifyGoogleToken env prov pf req bearerToken)) = [])
    \/ (exists tok payload,
          extra_get (extra authInfo) "tokenType" = str "id_token"
          /\ fst (run (verifyGoogleToken env prov pf req bearerToken))
             = [CallVerifyIdToken tok (GOOGLE_CLIENT_ID env)]
          /\ verifyIdToken prov tok (GOOGLE_CLIENT_ID env)
             = IdTicket (Some payload)
          /\ clientId authInfo = str (tp_sub payload)
          /\ expiresAt authInfo = Some (tp_exp payload))
    \/ (exists tok profile,
          extra_get (extra authInfo) "tokenType" = str "access_token"
          /\ fst (run (verifyGoogleToken env prov pf req bearerToken))
             = [CallFetch userinfo_url ("Bearer " ++ tok)]
          /\ profile_of (fetch prov userinfo_url ("Bearer " ++ tok))
             = Some profile
          /\ clientId authInfo = prop_of profile "id"
          /\ expiresAt authInfo = None)
    \/ (exists tok profile message,
          extra_get (extra authInfo) "tokenType"
          = str "access_token_fallback"
          /\ fst (run (verifyGoogleToken env prov pf req bearerToken))
             = [CallVerifyIdToken tok (GOOGLE_CLIENT_ID env);
                CallFetch userinfo_url ("Bearer " ++ tok)]
          /\ verifyIdToken prov tok (GOOGLE_CLIENT_ID env)
             = IdRejected message
          /\ profile_of (fetch prov userinfo_url ("Bearer " ++ tok))
             = Some profile
          /\ clientId authInfo = prop_of profile "id"
          /\ expiresAt authInfo = None).
Proof.
  intros req arg ai Hres.
  destruct (verifyGoogleToken_cases env prov pf req arg)
    as [[_ [_ Hrun]]|[[_ [_ Hrun]]|[tok [Hc Hrun]]]];
    rewrite Hrun in Hres |- *; cbn [snd fst] in Hres |- *.
  - injection Hres as <-. left. repeat split.
  - discriminate Hres.
  - destruct (origin_of pf (req_url req)) as [base|] eqn:Hbase.
    + rewrite (verify_bearer_run env prov pf req tok base Hbase) in Hres |- *.
      destruct (Nat.eqb (List.length (JS.split "." tok)) 3).
      * destruct (verifyIdToken prov tok (GOOGLE_CLIENT_ID env))
          as [msg|[p|]] eqn:Hid; cbn [snd fst option_map] in Hres |- *.
        -- destruct (profile_of (fetch prov userinfo_url ("Bearer " ++ tok)))
             as [u|] eqn:Hu; [|discriminate Hres].
           injection Hres as <-. right; right; right.
           exists tok, u, msg. repeat split; assumption.
        -- injection Hres as <-. right; left.
           exists tok, p. repeat split; assumption.
        -- discriminate Hres.
      * destruct (JS.startsWith "ya29." tok); cbn [snd fst] in Hres |- *;
          [|discriminate Hres].
        destruct (profile_of (fetch prov userinfo_url ("Bearer " ++ tok)))
          as [u|] eqn:Hu; [|discriminate Hres].
        injection Hres as <-. right; right; left.
        exists tok, u. repeat split; assumption.
    + rewrite (verify_bearer_bad_url env prov pf req tok Hbase) in Hres.
      discriminate Hres.
Qed.

End Provenance.

Lemma context_tells_its_strategy_witness :
  snd (run (verifyGoogleToken Sample.production Sample.profile_only
              Reference.platform (Sample.request Sample.mcp_url [])
              (Some "ya29.sampletoken")))
  = Returns (Some (profile_context "ya29.sampletoken"
                     "https://api.example.com" "access_token" Sample.profile))
  /\ fst (run (verifyGoogleToken Sample.production Sample.profile_only
                 Reference.platform (Sample.request Sample.mcp_url [])
                 (Some "ya29.sampletoken")))
     = [CallFetch userinfo_url "Bearer ya29.sampletoken"].
Proof.
  split; [reflexivity|].
  destruct (context_tells_its_strategy Sample.production
              Sample.profile_only Reference.platform
              (Sample.request Sample.mcp_url []) (Some "ya29.sampletoken")
              _ eq_refl)
    as [[Htag _]|[[tok [p [Htag _]]]|[[tok [u [_ [Hcalls _]]]]
       |[tok [u [m [Htag _]]]]]]].
  - discriminate Htag.
  - discriminate Htag.
  - rewrite Hcalls. injection Hcalls as <-. reflexivity.
  - discriminate Htag.
Defined.

(** ** More on the header scan *)

Lemma lower_ascii_idempotent (c : ascii) :
  JS.lower_ascii (JS.lower_ascii c) = JS.lower_ascii c.
Proof. destruct c as [[] [] [] [] [] [] [] []]; reflexivity. Qed.

Lemma lower_idempotent (s : string) : JS.lower (JS.lower s) = JS.lower s.
Proof.
  induction s as [|c r IH]; simpl; [reflexivity|].
  now rewrite lower_ascii_idempotent, IH.
Qed.

(** [get] does not tell the case of the names under which the headers were
    appended. *)
Lemma Headers_get_lower_names (hs : Headers) (name : string) :
  Headers_get (lower_names hs) name = Headers_get hs name.
Proof.
  unfold Headers_get.
  assert (H : filter (fun h => String.eqb (JS.lower (fst h)) (JS.lower name))
                     (lower_names hs)
              = lower_names
                  (filter (fun h => String.eqb (JS.lower (fst h))
                                               (JS.lower name)) hs)).
  { induction hs as [|[n v] hs IH]; simpl; [reflexivity|].
    rewrite lower_idempotent.
    destruct (String.eqb (JS.lower n) (JS.lower name)); simpl; now rewrite IH. }
  rewrite H.
  destruct (filter _ hs) as [|[n v] l]; simpl; [reflexivity|].
  do 2 f_equal. unfold lower_names. rewrite map_map. reflexivity.
Qed.

Lemma scan_headers_ext (hs hs' : Headers) (names : list string) :
  (forall name, Headers_get hs name = Headers_get hs' name) ->
  scan_headers hs names = scan_headers hs' names.
Proof.
  intros Hget. induction names as [|n names IH]; [reflexivity|].
  now rewrite !scan_headers_cons, Hget, IH.
Qed.

(** X9. The extraction does not depend on the case in which the request
    spells the names of its headers. *)
Theorem extraction_ignores_header_name_case :
  forall (req : Request) (bearerToken : option string),
    extract_token
      (mkRequest (req_url req) (req_method req) (lower_names (req_headers req)))
      bearerToken
    = extract_token req bearerToken.
Proof.
  intros req arg. unfold extract_token. cbn [req_headers].
  now rewrite (scan_headers_ext (lower_names (req_headers req))
                 (req_headers req) authHeaders
                 (Headers_get_lower_names (req_headers req))).
Qed.

(** X10. The capitalised entries of [authHeaders] never change the result:
    the scan gives what a scan of the four lower-case names gives. *)
Theorem capitalised_header_names_are_redundant :
  forall hs : Headers,
    scan_headers hs authHeaders
    = scan_headers hs
        ["authorization"; "bearer"; "x-auth-token"; "x-authorization"].
Proof.
  intros hs. unfold authHeaders. rewrite !scan_headers_cons.
  change (Headers_get hs "Authorization") with (Headers_get hs "authorization").
  change (Headers_get hs "Bearer") with (Headers_get hs "bearer").
  destruct (Headers_get hs "authorization") as [v|];
    [destruct (strip_bearer v); [reflexivity|]|];
    (destruct (Headers_get hs "bearer") as [w|];
     [destruct (strip_bearer w); reflexivity|reflexivity]).
Qed.

(** ** More on [validateTokenAudience] *)

Lemma strict_eq_string_iff (v : jsval) (s : string) :
  strict_eq_string v s = true <-> v = Some (JStr s).
Proof.
  destruct v as [[| | |t| |]|]; simpl; try (split; discriminate).
  rewrite String.eqb_eq. split; congruence.
Qed.

Lemma array_includes_string_iff (v : jsval) (s : string) :
  array_includes_string v s = true
  <-> exists elems, v = Some (JArr elems) /\ In (JStr s) elems.
Proof.
  destruct v as [[| | | |l|]|]; unfold array_includes_string;
    try (split; [discriminate|intros [l' [H _]]; discriminate H]).
  rewrite existsb_exists. split.
  - intros [e [Hin He]]. apply strict_eq_string_iff in He.
    injection He as ->. now exists l.
  - intros [l' [[= <-] Hin]]. exists (JStr s). split; [exact Hin|].
    now apply strict_eq_string_iff.
Qed.

(** X11. The audience check passes in exactly two ways: the token does not
    have three segments, or its middle segment decodes to a value that is
    not [null] and whose [aud] member is the expected audience or an array
    that holds it. *)
Theorem validateTokenAudience_iff :
  forall (pf : Platform) (token expectedAudience : string),
    validateTokenAudience pf token expectedAudience = true
    <-> List.length (JS.split "." token) <> 3
        \/ exists payload aud,
             List.length (JS.split "." token) = 3
             /\ decode_segment pf (nth 1 (JS.split "." token) EmptyString)
                = Some payload
             /\ get_prop payload "aud" = Some aud
             /\ (aud = Some (JStr expectedAudience)
                 \/ exists elems,
                      aud = Some (JArr elems)
                      /\ In (JStr expectedAudience) elems).
Proof.
  intros pf token e.
  unfold validateTokenAudience, validateTokenAudience_try.
  destruct (Nat.eqb (List.length (JS.split "." token)) 3) eqn:Hlen.
  - apply Nat.eqb_eq in Hlen.
    destruct (decode_segment pf (nth 1 (JS.split "." token) EmptyString))
      as [payload|] eqn:Hd.
    + destruct (get_prop payload "aud") as [aud|] eqn:Hg.
      * rewrite orb_true_iff, strict_eq_string_iff, array_includes_string_iff.
        split.
        -- intros H. right. exists payload, aud. repeat split; auto.
        -- intros [Hn|[p [a [_ [[= <-] [Hg' H]]]]]]; [contradiction|].
           rewrite Hg in Hg'. injection Hg' as <-. exact H.
      * split; [discriminate|].
        intros [Hn|[p [a [_ [[= <-] [Hg' _]]]]]]; [contradiction|].
        rewrite Hg in Hg'. discriminate Hg'.
    + split; [discriminate|].
      intros [Hn|[p [a [_ [H _]]]]]; [contradiction|discriminate H].
  - apply Nat.eqb_neq in Hlen. split; [now left|reflexivity].
Qed.

(** X12. The audience check never looks at the first and the last segment
    of a token: two tokens of three segments with the same middle segment
    get the same answer, so that the check says nothing of the
    signature. *)
Theorem validateTokenAudience_reads_payload_only :
  forall (pf : Platform) (token token' expectedAudience : string)
         (header signature header' signature' payload : string),
    JS.split "." token = [header; payload; signature] ->
    JS.split "." token' = [header'; payload; signature'] ->
    validateTokenAudience pf token expectedAudience
    = validateTokenAudience pf token' expectedAudience.
Proof.
  intros pf token token' e h s h' s' p Ht Ht'.
  unfold validateTokenAudience, validateTokenAudience_try.
  now rewrite Ht, Ht'.
Qed.

Lemma validateTokenAudience_reads_payload_only_witness :
  validateTokenAudience Reference.platform
    "e30.eyJhdWQiOiJodHRwczovL2FwaS5leGFtcGxlLmNvbSJ9.sig"
    "https://api.example.com"
  = validateTokenAudience Reference.platform
      "forged.eyJhdWQiOiJodHRwczovL2FwaS5leGFtcGxlLmNvbSJ9."
      "https://api.example.com".
Proof.
  apply (validateTokenAudience_reads_payload_only Reference.platform
           _ _ _ "e30" "sig" "forged" EmptyString
           "eyJhdWQiOiJodHRwczovL2FwaS5leGFtcGxlLmNvbSJ9");
    reflexivity.
Defined.

(** ** More on [validateResourceParameter] *)

(** X13. On the strings that parse as URLs, [validateResourceParameter] is
    an equivalence: it is symmetric and transitive, and a string matches
    itself exactly when it parses. *)
Theorem validateResourceParameter_equivalence :
  forall (pf : Platform) (r s t : string),
    validateResourceParameter pf r s = validateResourceParameter pf s r
    /\ (validateResourceParameter pf r s = true ->
        validateResourceParameter pf s t = true ->
        validateResourceParameter pf r t = true)
    /\ (validateResourceParameter pf r r = true <-> URL_parse pf r <> None).
Proof.
  intros pf r s t. unfold validateResourceParameter, origin_of.
  destruct (URL_parse pf r) as [u|], (URL_parse pf s) as [v|],
    (URL_parse pf t) as [w|]; repeat split;
    try discriminate; try reflexivity; try apply String.eqb_sym;
    try (intros; apply String.eqb_refl); try (intros H; now elim H).
  intros H1 H2. apply String.eqb_eq in H1, H2. apply String.eqb_eq. congruence.
Qed.

(** ** More on [verifyPKCE] *)

Lemma base64url_value_digit (n : Z) :
  (0 <= n < 64)%Z -> base64url_value (base64url_digit n) = n.
Proof.
  intros Hn.
  assert (H : exists k, (k < 64)%nat /\ n = Z.of_nat k).
  { exists (Z.to_nat n). split; lia. }
  destruct H as [k [Hk ->]].
  unfold base64url_digit. rewrite Nat2Z.id.
  do 64 (destruct k as [|k]; [vm_compute; reflexivity|]). lia.
Qed.

Lemma base64url_digit_in_alphabet (n : Z) :
  (0 <= n < 64)%Z ->
  In (base64url_digit n) (list_ascii_of_string base64url_alphabet).
Proof.
  intros Hn.
  assert (H : exists k, (k < 64)%nat /\ n = Z.of_nat k).
  { exists (Z.to_nat n). split; lia. }
  destruct H as [k [Hk ->]].
  unfold base64url_digit. rewrite Nat2Z.id.
  do 64 (destruct k as [|k]; [vm_compute; tauto|]). lia.
Qed.

Ltac digit_range := unfold is_byte in *; Z.div_mod_to_equations; lia.

(** Decoding gives back the bytes that were encoded. *)
Lemma base64url_decode_encode (bs : list Z) :
  Forall is_byte bs -> base64url_decode (base64url bs) = bs.
Proof.
  induction bs as [|a|a b|a b c rest IH] using triples_ind; intros Hb.
  - reflexivity.
  - inversion_clear Hb as [|? ? Ha _].
    cbn [base64url base64url_decode].
    rewrite !base64url_value_digit by digit_range.
    f_equal. digit_range.
  - inversion_clear Hb as [|? ? Ha Hb']. inversion_clear Hb' as [|? ? Hb _].
    cbn [base64url base64url_decode].
    rewrite !base64url_value_digit by digit_range.
    f_equal; [digit_range|f_equal; digit_range].
  - inversion_clear Hb as [|? ? Ha Hb']. inversion_clear Hb' as [|? ? Hb Hc'].
    inversion_clear Hc' as [|? ? Hc Hrest].
    cbn [base64url base64url_decode].
    rewrite !base64url_value_digit by digit_range.
    rewrite (IH Hrest).
    f_equal; [digit_range|f_equal; [digit_range|f_equal; digit_range]].
Qed.

Lemma base64url_in_alphabet (bs : list Z) (ch : ascii) :
  Forall is_byte bs ->
  In ch (list_ascii_of_string (base64url bs)) ->
  In ch (list_ascii_of_string base64url_alphabet).
Proof.
  induction bs as [|a|a b|a b c rest IH] using triples_ind; intros Hb Hin.
  - contradiction.
  - inversion_clear Hb as [|? ? Ha _].
    cbn [base64url list_ascii_of_string In] in Hin.
    destruct Hin as [<-|[<-|[]]]; apply base64url_digit_in_alphabet;
      digit_range.
  - inversion_clear Hb as [|? ? Ha Hb']. inversion_clear Hb' as [|? ? Hb _].
    cbn [base64url list_ascii_of_string In] in Hin.
    destruct Hin as [<-|[<-|[<-|[]]]]; apply base64url_digit_in_alphabet;
      digit_range.
  - inversion_clear Hb as [|? ? Ha Hb']. inversion_clear Hb' as [|? ? Hb Hc'].
    inversion_clear Hc' as [|? ? Hc Hrest].
    cbn [base64url list_ascii_of_string In] in Hin.
    destruct Hin as [<-|[<-|[<-|[<-|Hin]]]];
      try (apply base64url_digit_in_alphabet; digit_range).
    now apply IH.
Qed.

(** X14. A challenge that verifies is written in the URL-safe alphabet: a
    challenge in which a plus sign, a slash, an equals sign or any other
    character stands is refused for every verifier. *)
Theorem verifyPKCE_challenge_alphabet :
  forall (codeChallenge codeVerifier : string) (ch : ascii),
    verifyPKCE codeChallenge codeVerifier = true ->
    In ch (list_ascii_of_string codeChallenge) ->
    In ch (list_ascii_of_string base64url_alphabet).
Proof.
  intros c v ch Hv Hin.
  apply String.eqb_eq in Hv. subst c. unfold sha256_base64url in Hin.
  apply (base64url_in_alphabet (SHA256.digest (utf8 v)) ch);
    [apply digest_shape|exact Hin].
Qed.

Lemma verifyPKCE_challenge_alphabet_witness :
  In "-"%char (list_ascii_of_string base64url_alphabet).
Proof.
  apply (verifyPKCE_challenge_alphabet
           "47DEQpj8HBSa-_TImW-5JCeuQeRkm5NMpJWZG3hSuFU" EmptyString "-"%char).
  - vm_compute. reflexivity.
  - vm_compute. tauto.
Defined.

(** X15. A challenge binds the digest of the verifier: when a verifier is
    accepted for a challenge, another verifier is accepted for the same
    challenge exactly when the SHA-256 digests of the two are the same
    bytes. *)
Theorem verifyPKCE_binds_digest :
  forall codeChallenge codeVerifier codeVerifier' : string,
    verifyPKCE codeChallenge codeVerifier = true ->
    (verifyPKCE codeChallenge codeVerifier' = true
     <-> SHA256.digest (utf8 codeVerifier)
         = SHA256.digest (utf8 codeVerifier')).
Proof.
  intros c v v' Hv. unfold verifyPKCE, sha256_base64url in *.
  apply String.eqb_eq in Hv. subst c. rewrite String.eqb_eq. split.
  - intros H.
    rewrite <- (base64url_decode_encode (SHA256.digest (utf8 v)))
      by apply digest_shape.
    rewrite <- (base64url_decode_encode (SHA256.digest (utf8 v')))
      by apply digest_shape.
    now rewrite H.
  - now intros ->.
Qed.

Lemma verifyPKCE_binds_digest_witness :
  verifyPKCE "47DEQpj8HBSa-_TImW-5JCeuQeRkm5NMpJWZG3hSuFU" "a" = false.
Proof.
  destruct (verifyPKCE "47DEQpj8HBSa-_TImW-5JCeuQeRkm5NMpJWZG3hSuFU" "a")
    eqn:E; [|reflexivity].
  apply (verifyPKCE_binds_digest
           "47DEQpj8HBSa-_TImW-5JCeuQeRkm5NMpJWZG3hSuFU" EmptyString "a") in E.
  - vm_compute in E. discriminate E.
  - vm_compute. reflexivity.
Defined.

Lemma nat_of_ascii_Z_range (c : ascii) :
  (0 <= Z.of_nat (nat_of_ascii c) < 256)%Z.
Proof. pose proof (nat_ascii_bounded c). lia. Qed.

(** X16. Two verifiers are hashed on the same bytes only when they are the
    same string: the UTF-8 encoding that precedes the hash confuses no two
    verifiers. *)
Theorem utf8_injective :
  forall s s' : string, utf8 s = utf8 s' -> s = s'.
Proof.
  assert (Hchar : forall c c',
             Z.of_nat (nat_of_ascii c) = Z.of_nat (nat_of_ascii c') -> c = c').
  { intros c c' H. apply Nat2Z.inj in H.
    rewrite <- (ascii_nat_embedding c), <- (ascii_nat_embedding c').
    now rewrite H. }
  induction s as [|c r IH]; intros [|c' r'] H; cbn [utf8] in H.
  - reflexivity.
  - destruct (Z.of_nat (nat_of_ascii c') <? 128)%Z; discriminate H.
  - destruct (Z.of_nat (nat_of_ascii c) <? 128)%Z; discriminate H.
  - pose proof (nat_of_ascii_Z_range c) as Hc.
    pose proof (nat_of_ascii_Z_range c') as Hc'.
    revert H.
    destruct (Z.ltb_spec (Z.of_nat (nat_of_ascii c)) 128) as [Hlt|Hge];
      destruct (Z.ltb_spec (Z.of_nat (nat_of_ascii c')) 128) as [Hlt'|Hge'];
      intros H.
    + injection H as Hn Hr. f_equal; [now apply Hchar|now apply IH].
    + remember (192 + Z.of_nat (nat_of_ascii c') / 64)%Z as lead eqn:El.
      injection H as Hn _. exfalso. Z.div_mod_to_equations. lia.
    + remember (192 + Z.of_nat (nat_of_ascii c) / 64)%Z as lead eqn:El.
      injection H as Hn _. exfalso. Z.div_mod_to_equations. lia.
    + remember (192 + Z.of_nat (nat_of_ascii c) / 64)%Z as lead eqn:El.
      remember (128 + Z.of_nat (nat_of_ascii c) mod 64)%Z as trail eqn:Et.
      remember (192 + Z.of_nat (nat_of_ascii c') / 64)%Z as lead' eqn:El'.
      remember (128 + Z.of_nat (nat_of_ascii c') mod 64)%Z as trail' eqn:Et'.
      injection H as Hq Hm Hr. f_equal; [|now apply IH].
      apply Hchar. Z.div_mod_to_equations. lia.
Qed.

Lemma utf8_injective_witness :
  String (ascii_of_nat 233) EmptyString = String (ascii_of_nat 233) EmptyString.
Proof. apply utf8_injective. reflexivity. Defined.

(** ** [formatUserInfo] *)





Section FormatProperties.

Variable num : NumberOps.



(** X18. For a context verified as an ID token the call returns, and the
    text is made of the [name] and the [email] of the payload alone, an
    empty one counting as absent: both, the email alone, the name alone,
    or the anonymous text. *)
Theorem formatUserInfo_of_id_token :
  forall (bearerToken baseUrl : string) (payload : TokenPayload),
    formatUserInfo num
      (Some (of_context (id_token_info bearerToken baseUrl payload)))
    = Returns
        match tp_name payload, tp_email payload with
        | Some (String a n), Some (String b e) =>
            (" (authenticated as " ++ String a n
             ++ " <" ++ String b e ++ ">)")%string
        | _, Some (String b e) =>
            (" (authenticated as " ++ String b e ++ ")")%string
        | Some (String a n), _ =>
            (" (authenticated as " ++ String a n ++ ")")%string
        | _, _ => " (authenticated user)"
        end.
Proof.
  intros tok base p. unfold formatUserInfo, of_context, id_token_info.
  cbn [any_extra extra].
  change (extra_get _ "email") with (opt_str (tp_email p)).
  change (extra_get _ "name") with (opt_str (tp_name p)).
  destruct (tp_name p) as [[|a n]|], (tp_email p) as [[|b e]|]; reflexivity.
Qed.

End FormatProperties.


(** The two edges of [formatUserInfo]: a context without [extra] gives the
    empty string, and a [name] that is an object with a member [toString]
    makes the call throw. *)
Example formatUserInfo_without_extra :
  formatUserInfo (mkNumberOps (fun _ => true) (fun s => s))
    (Some (mkAnyAuthInfo "t" mcpScopes (str "id") None None))
  = Returns EmptyString.
Proof. reflexivity. Qed.

Example formatUserInfo_throws :
  formatUserInfo (mkNumberOps (fun _ => true) (fun s => s))
    (Some (mkAnyAuthInfo "t" mcpScopes (str "id") None
             (Some [("email", str "e@x.y");
                    ("name", Some (JObj [("toString", JNum "1")]))])))
  = Throws TypeError
  /\ formatUserInfo (mkNumberOps (fun _ => true) (fun s => s))
       (Some (mkAnyAuthInfo "t" mcpScopes (str "id") None
                (Some [("email", str "e@x.y");
                       ("name", Some (JArr [JStr "a"; JNull; JObj []]))])))
     = Returns " (authenticated as a,,[object Object] <e@x.y>)".
Proof. split; reflexivity. Qed.

(** ** The development context *)

(** X19. The development context is returned exactly under the three
    conditions of the bypass: no token in the call or in the headers,
    [NODE_ENV] set to [development] and [SKIP_AUTH] set to [true]. No
    answer of the provider makes the function return it. *)
Theorem development_context_iff_bypass :
  forall (env : Env) (prov : Provider) (pf : Platform)
         (req : Request) (bearerToken : option string),
    snd (run (verifyGoogleToken env prov pf req bearerToken))
      = Returns (Some dev_bypass_info)
    <-> JS.truthy (extract_token req bearerToken) = false
        /\ NODE_ENV env = Some "development"
        /\ SKIP_AUTH env = Some "true".
Proof.
  intros env prov pf req arg.
  rewrite <- development_bypass_iff.
  destruct (verifyGoogleToken_cases env prov pf req arg)
    as [[Hdev [_ Hrun]]|[[Hdev [_ Hrun]]|[tok [Hc Hrun]]]]; rewrite Hrun.
  - split; [intros _; exact Hdev|reflexivity].
  - split; [discriminate|intros H; contradiction].
  - assert (Hdev : development_bypass env (extract_token req arg)
                   <> DevBypass).
    { unfold credential in Hc. intros E. rewrite E in Hc. discriminate Hc. }
    split; [|intros H; contradiction].
    destruct (origin_of pf (req_url req)) as [base|] eqn:Hbase.
    + rewrite (verify_bearer_run env prov pf req tok base Hbase).
      destruct (Nat.eqb (List.length (JS.split "." tok)) 3).
      * destruct (verifyIdToken prov tok (GOOGLE_CLIENT_ID env))
          as [msg|[p|]]; cbn [snd option_map];
          try destruct (profile_of _); cbn [option_map];
          unfold id_token_info, profile_context, dev_bypass_info;
          discriminate.
      * destruct (JS.startsWith "ya29." tok); cbn [snd];
          try destruct (profile_of _); cbn [option_map];
          unfold profile_context, dev_bypass_info; discriminate.
    + rewrite (verify_bearer_bad_url env prov pf req tok Hbase).
      discriminate.
Qed.
